(** * MindInsight UI: the profiling helper panel and the SVG sizing wrapper

    A shallow embedding of two Vue components:
    - the profiling helper (methods [getDataOfProfileHelper], [adviceToShow],
      [adviceChange], [getAdvisorProposer]);
    - [svg-wrapper.vue] (its [data], [mounted] hook and template).

    The components are JavaScript, so the first module gives the fragment of
    JavaScript's dynamic semantics the two components exercise: JSON values,
    property reads, the string and number coercions, relational comparison,
    subtraction and [String.prototype.replace].

    Modelling boundary.  Numbers are the IEEE 754 doubles, computed with the
    binary64 instance of the Standard Library's [SpecFloat]; a number is
    printed by the shortest-digits rule of [Number::toString] and read by the
    full grammar of numeric string literals.  Strings are 8-bit text; an
    object is the list of its own properties in enumeration order; the only
    inherited members modelled are the ones the source reaches by a fixed
    name ([length], [hasOwnProperty], [forEach], [replace], and
    [String.prototype.anchor]).  The i18n message table is modelled by its own
    entries; the names [Observe.reserved_names] lists are the ones under
    which the table answers with a member of [Object.prototype] or of Vue's
    observer instead, and the results that read or write the table by a name
    of the response exclude them. *)

From Stdlib Require Import ZArith QArith Qround String Ascii List Lia DecimalString.
From Stdlib Require Import SpecFloat.
From stdpp Require Import base gmap strings list.

#[local] Set Warnings "-register-all".

Module JS.

(** ** Values *)

(** A number is a double.  [Fin z] is the double nearest the integer [z]
    (what the integer literal [z] denotes); on the integers up to 2^53 in
    magnitude that is [z] itself.  [Dbl f] is any other double, given by its
    IEEE 754 datum; the two zeros are not told apart (nothing in the two
    components divides or inspects a sign). *)
Inductive num : Type :=
| NaN
| Fin (z : Z)
| Dbl (f : spec_float).

Inductive value : Type :=
| VUndef
| VNull
| VBool (b : bool)
| VNum (n : num)
| VStr (s : string)
| VArr (elems : list value)
| VObj (fields : list (string * value))
| VBuiltin (arity : nat).
(* [VBuiltin n]: a built-in method read off a prototype (a function object of
   [n] formal parameters).  It is never part of a JSON payload. *)

(** A JavaScript computation either completes or throws.  Every exception of
    the helper ends in the same empty [catch], so one constructor is enough. *)
Inductive result (A : Type) : Type :=
| Ok (a : A)
| Throw.
Arguments Ok {A} a.
Arguments Throw {A}.

Definition bindR {A B} (c : result A) (k : A -> result B) : result B :=
  match c with
  | Ok a => k a
  | Throw => Throw
  end.

Declare Scope js_scope.
Delimit Scope js_scope with js.
Notation "x <- c ;; k" := (bindR c (fun x => k))
  (at level 100, c at next level, right associativity) : js_scope.
Local Open Scope js_scope.

(** ** Text helpers *)

Definition dq : string := String "034"%char EmptyString.
Definition nl : string := String "010"%char EmptyString.

Fixpoint spaces (n : nat) : string :=
  match n with
  | O => EmptyString
  | S k => String " "%char (spaces k)
  end.

(** A line break of a template literal followed by its indentation. *)
Definition ln (n : nat) : string := nl +:+ spaces n.

(** [q s] is [s] between double quotes (an HTML attribute value). *)
Definition q (s : string) : string := dq +:+ s +:+ dq.

Definition nat_to_string (n : nat) : string :=
  NilZero.string_of_uint (Nat.to_uint n).

Definition Z_to_string (z : Z) : string :=
  NilZero.string_of_int (Z.to_int z).

(** ** Doubles *)

Section Doubles.
Local Open Scope Z_scope.

Definition prec : Z := 53.
Definition emax : Z := 1024.

(** The integers every one of which is a double. *)
Definition safe (z : Z) : bool := Z.abs z <=? 9007199254740992.

(** The double nearest an integer (ties to even). *)
Definition SF_of_Z (z : Z) : spec_float := binary_normalize prec emax z 0 false.

Definition to_SF (n : num) : spec_float :=
  match n with
  | NaN => S754_nan
  | Fin z => SF_of_Z z
  | Dbl f => f
  end.

(** The integer a double is, when it is one. *)
Definition SF_integer (f : spec_float) : option Z :=
  match f with
  | S754_zero _ => Some 0
  | S754_finite s m e =>
      let v :=
        if 0 <=? e then Some (Zpos m * 2 ^ e)
        else if Zpos m mod 2 ^ (- e) =? 0 then Some (Zpos m / 2 ^ (- e))
        else None in
      option_map (fun z => if s then - z else z) v
  | _ => None
  end.

Definition of_SF (f : spec_float) : num :=
  match f with
  | S754_nan => NaN
  | _ =>
      match SF_integer f with
      | Some z => if safe z then Fin z else Dbl f
      | None => Dbl f
      end
  end.

(** *** Number::toString

    For a positive double [m * 2^e] the digits printed are the shortest
    decimal [s * 10^p] that reads back as the same double, and among those
    the one nearest the double.  [interval] is the double and the two ends of
    the reals that round to it, as numerators over a common denominator. *)
Definition interval (m : positive) (e : Z) : Z * Z * Z * Z :=
  let delta := if (Zpos m =? 2 ^ 52) && (-1074 <? e) then 1 else 2 in
  let L := 4 * Zpos m - delta in
  let V := 4 * Zpos m in
  let H := 4 * Zpos m + 2 in
  if 2 <=? e then (L * 2 ^ (e - 2), V * 2 ^ (e - 2), H * 2 ^ (e - 2), 1)
  else (L, V, H, 2 ^ (2 - e)).

(** [V / D < 10^n]. *)
Definition below_pow10 (V D n : Z) : bool :=
  if 0 <=? n then V <? 10 ^ n * D else V * 10 ^ (- n) <? D.

Fixpoint magnitude_from (fuel : nat) (V D n : Z) : Z :=
  match fuel with
  | O => n
  | S k => if below_pow10 V D n then n else magnitude_from k V D (n + 1)
  end.

(** The least [n] with [V / D < 10^n]; the binary logarithms place it within
    two of the first guess. *)
Definition magnitude (V D : Z) : Z :=
  magnitude_from 4 V D ((Z.log2 V - Z.log2 D) * 30103 / 100000).

(** The [k]-digit decimal [s * 10^(n-k)] inside the interval that is nearest
    the double, if there is one: it is one of the two neighbours of the
    double on the grid of step [10^(n-k)]. *)
Definition try_digits (even : bool) (L V H D n k : Z) : option (Z * Z) :=
  let p := n - k in
  let A := if 0 <=? p then 1 else 10 ^ (- p) in
  let U := (if 0 <=? p then 10 ^ p else 1) * D in
  let lo := (V * A) / U in
  let hi := lo + 1 in
  let inside s :=
    if even then (L * A <=? s * U) && (s * U <=? H * A)
    else (L * A <? s * U) && (s * U <? H * A) in
  match inside lo, inside hi with
  | true, true =>
      match (V * A - lo * U) ?= (hi * U - V * A) with
      | Lt => Some (lo, p)
      | Gt => Some (hi, p)
      | Eq => Some (if Z.even lo then lo else hi, p)
      end
  | true, false => Some (lo, p)
  | false, true => Some (hi, p)
  | false, false => None
  end.

Fixpoint shortest (fuel : nat) (even : bool) (L V H D n k : Z) : Z * Z :=
  match fuel with
  | O => (V / D, 0)
  | S f =>
      match try_digits even L V H D n k with
      | Some r => r
      | None => shortest f even L V H D n (k + 1)
      end
  end.

Fixpoint strip_zeros (fuel : nat) (s p : Z) : Z * Z :=
  match fuel with
  | O => (s, p)
  | S f =>
      if (s mod 10 =? 0) && (0 <? s) then strip_zeros f (s / 10) (p + 1)
      else (s, p)
  end.

(** Seventeen digits always identify a double, so the search ends within its
    fuel. *)
Definition decimal_of (m : positive) (e : Z) : Z * Z :=
  let '(L, V, H, D) := interval m e in
  let '(s, p) := shortest 20 (Z.even (Zpos m)) L V H D (magnitude V D) 1 in
  strip_zeros 20 s p.

Fixpoint zeros (n : nat) : string :=
  match n with
  | O => EmptyString
  | S k => String "0"%char (zeros k)
  end.

(** The layout of [Number::toString]: with [k] digits and the decimal point
    after the [n]-th, plain digits up to 21 places, a leading [0.] down to
    six zeros, and the exponent form beyond. *)
Definition format_decimal (s p : Z) : string :=
  let digits := Z_to_string s in
  let k := Z.of_nat (String.length digits) in
  let n := p + k in
  if (k <=? n) && (n <=? 21) then digits +:+ zeros (Z.to_nat (n - k))
  else if (0 <? n) && (n <=? 21) then
    substring 0 (Z.to_nat n) digits +:+ "." +:+
    substring (Z.to_nat n) (Z.to_nat (k - n)) digits
  else if (-6 <? n) && (n <=? 0) then
    "0." +:+ zeros (Z.to_nat (- n)) +:+ digits
  else
    let e := n - 1 in
    let mant :=
      if k =? 1 then digits
      else substring 0 1 digits +:+ "." +:+
           substring 1 (Z.to_nat (k - 1)) digits in
    mant +:+ "e" +:+ (if 0 <=? e then "+" else "-") +:+ Z_to_string (Z.abs e).

Definition SF_to_string (f : spec_float) : string :=
  match f with
  | S754_nan => "NaN"
  | S754_zero _ => "0"
  | S754_infinity false => "Infinity"
  | S754_infinity true => "-Infinity"
  | S754_finite s m e =>
      let '(d, p) := decimal_of m e in
      (if s then "-" else EmptyString) +:+ format_decimal d p
  end.

(** An integer up to 2^53 prints as its decimal digits (it is below 10^21
    and nothing shorter reads back as it); any other prints as the double it
    denotes. *)
Definition num_to_string (n : num) : string :=
  match n with
  | NaN => "NaN"
  | Fin z => if safe z then Z_to_string z else SF_to_string (SF_of_Z z)
  | Dbl f => SF_to_string f
  end.

(** *** Decimal literals

    The double nearest [d * 10^e] for a natural [d].  Beyond 10^400 and below
    10^-400 the answer is infinity and zero whatever the digits are. *)
Definition SF_of_decimal (neg : bool) (d e : Z) : spec_float :=
  match d with
  | Zpos m =>
      if 0 <=? e then
        if 400 <? e then S754_infinity neg
        else binary_normalize prec emax
               (if neg then - (d * 10 ^ e) else d * 10 ^ e) 0 neg
      else if Z.log2 d + 1 <? (- e - 400) * 3 then S754_zero neg
      else
        match 10 ^ (- e) with
        | Zpos t => SFdiv prec emax (S754_finite neg m 0) (S754_finite false t 0)
        | _ => S754_nan
        end
  | _ => S754_zero neg
  end.

(** The number a JSON or source literal [d]e[e] denotes: [number 35 (-2)] is
    0.35. *)
Definition number (d e : Z) : num :=
  of_SF (SF_of_decimal (d <? 0) (Z.abs d) e).

(** *** Arithmetic on numbers *)

Definition num_lt (x y : num) : option bool :=
  match x, y with
  | NaN, _ | _, NaN => None
  | Fin a, Fin b =>
      if safe a && safe b then Some (a <? b)
      else match SFcompare (SF_of_Z a) (SF_of_Z b) with
           | Some Lt => Some true
           | Some _ => Some false
           | None => None
           end
  | _, _ =>
      match SFcompare (to_SF x) (to_SF y) with
      | Some Lt => Some true
      | Some _ => Some false
      | None => None
      end
  end.

Definition num_sub (x y : num) : num :=
  match x, y with
  | NaN, _ | _, NaN => NaN
  | Fin a, Fin b =>
      if safe a && safe b then Fin (a - b)
      else of_SF (SFsub prec emax (SF_of_Z a) (SF_of_Z b))
  | _, _ => of_SF (SFsub prec emax (to_SF x) (to_SF y))
  end.

End Doubles.

(** [Array.prototype.join] on strings. *)
Definition join (sep : string) (l : list string) : string :=
  String.concat sep l.

(** [String.prototype.endsWith]. *)
Definition endsWith (s suffix : string) : bool :=
  let n := String.length s in
  let m := String.length suffix in
  (m <=? n)%nat && String.eqb (substring (n - m) m s) suffix.

(** [Array.prototype.includes] on an array of strings. *)
Definition includes (l : list string) (x : string) : bool :=
  existsb (String.eqb x) l.

(** ** Own properties *)

Fixpoint assoc (k : string) (fs : list (string * value)) : option value :=
  match fs with
  | [] => None
  | (k', v) :: r => if String.eqb k k' then Some v else assoc k r
  end.

Definition has_key (k : string) (fs : list (string * value)) : bool :=
  match assoc k fs with
  | Some _ => true
  | None => false
  end.

Definition digit_val (c : ascii) : option nat :=
  let n := nat_of_ascii c in
  if (48 <=? n)%nat && (n <=? 57)%nat then Some (n - 48)%nat else None.

Fixpoint parse_digits (s : string) (acc : nat) : option nat :=
  match s with
  | EmptyString => Some acc
  | String c r =>
      match digit_val c with
      | Some d => parse_digits r (10 * acc + d)%nat
      | None => None
      end
  end.

(** An array index written canonically ([0], [1], [12], never [01]). *)
Definition index_of_key (k : string) : option nat :=
  match k with
  | EmptyString => None
  | _ =>
      match parse_digits k 0 with
      | Some n => if String.eqb (nat_to_string n) k then Some n else None
      | None => None
      end
  end.

Definition char_at (s : string) (i : nat) : value :=
  match String.get i s with
  | Some c => VStr (String c EmptyString)
  | None => VUndef
  end.

(** [v[k]] and [v.k]: a property read.  Reading off [undefined] or [null]
    throws a TypeError. *)
Definition get_prop (v : value) (k : string) : result value :=
  match v with
  | VUndef | VNull => Throw
  | VBool _ | VNum _ => Ok VUndef
  | VStr s =>
      if String.eqb k "length" then Ok (VNum (Fin (Z.of_nat (String.length s))))
      else if String.eqb k "anchor" then Ok (VBuiltin 1)
      else match index_of_key k with
           | Some i => Ok (char_at s i)
           | None => Ok VUndef
           end
  | VArr l =>
      if String.eqb k "length" then Ok (VNum (Fin (Z.of_nat (List.length l))))
      else match index_of_key k with
           | Some i => Ok (nth i l VUndef)
           | None => Ok VUndef
           end
  | VObj fs =>
      match assoc k fs with
      | Some x => Ok x
      | None => Ok VUndef
      end
  | VBuiltin n =>
      if String.eqb k "length" then Ok (VNum (Fin (Z.of_nat n))) else Ok VUndef
  end.

(** [v[i]] for a number [i]. *)
Definition get_index (v : value) (i : nat) : result value :=
  match v with
  | VUndef | VNull => Throw
  | VStr s => Ok (char_at s i)
  | VArr l => Ok (nth i l VUndef)
  | VObj fs =>
      match assoc (nat_to_string i) fs with
      | Some x => Ok x
      | None => Ok VUndef
      end
  | VBool _ | VNum _ | VBuiltin _ => Ok VUndef
  end.

(** [v.hasOwnProperty(k)].  The method is inherited from [Object.prototype];
    an own data property of that name shadows it with something that cannot be
    called. *)
Definition hasOwnProperty (v : value) (k : string) : result bool :=
  match v with
  | VUndef | VNull => Throw
  | VBool _ | VNum _ => Ok false
  | VStr s =>
      Ok (String.eqb k "length" ||
          match index_of_key k with
          | Some i => (i <? String.length s)%nat
          | None => false
          end)
  | VArr l =>
      Ok (String.eqb k "length" ||
          match index_of_key k with
          | Some i => (i <? List.length l)%nat
          | None => false
          end)
  | VObj fs => if has_key "hasOwnProperty" fs then Throw else Ok (has_key k fs)
  | VBuiltin _ => Ok (String.eqb k "length" || String.eqb k "name")
  end.

(** [Object.keys(v)]. *)
Definition object_keys (v : value) : result (list string) :=
  match v with
  | VUndef | VNull => Throw
  | VBool _ | VNum _ | VBuiltin _ => Ok []
  | VStr s => Ok (map nat_to_string (seq 0 (String.length s)))
  | VArr l => Ok (map nat_to_string (seq 0 (List.length l)))
  | VObj fs => Ok (map fst fs)
  end.

(** ** Coercions *)

(** ToBoolean. *)
Definition truthy (v : value) : bool :=
  match v with
  | VUndef | VNull => false
  | VBool b => b
  | VNum NaN => false
  | VNum (Fin z) => negb (z =? 0)%Z
  | VNum (Dbl (S754_zero _ | S754_nan)) => false
  | VNum (Dbl _) => true
  | VStr s => negb (String.eqb s EmptyString)
  | VArr _ | VObj _ | VBuiltin _ => true
  end.

(** ToString, as a template literal applies it.  An array prints the join of
    its elements; a plain object prints through [Object.prototype.toString]
    unless an own [toString] data property shadows it, in which case no
    primitive is obtained and a TypeError is thrown. *)
Fixpoint to_string (v : value) : result string :=
  match v with
  | VUndef => Ok "undefined"
  | VNull => Ok "null"
  | VBool true => Ok "true"
  | VBool false => Ok "false"
  | VNum n => Ok (num_to_string n)
  | VStr s => Ok s
  | VArr l =>
      ss <- (fix elems (l : list value) : result (list string) :=
               match l with
               | [] => Ok []
               | x :: r =>
                   s <- match x with
                        | VUndef | VNull => Ok EmptyString
                        | _ => to_string x
                        end ;;
                   ss <- elems r ;;
                   Ok (s :: ss)
               end) l ;;
      Ok (join "," ss)
  | VObj fs => if has_key "toString" fs then Throw else Ok "[object Object]"
  | VBuiltin _ => Ok "function anchor() { [native code] }"
  end.

(** ToPrimitive: containers have no primitive [valueOf], so both hints end in
    the string conversion. *)
Definition to_primitive (v : value) : result value :=
  match v with
  | VArr _ | VObj _ | VBuiltin _ => s <- to_string v ;; Ok (VStr s)
  | _ => Ok v
  end.

(** StrWhiteSpaceChar among the code units below 256: tab to carriage
    return, space, and the no-break space. *)
Definition is_ws (c : ascii) : bool :=
  let n := nat_of_ascii c in
  ((9 <=? n)%nat && (n <=? 13)%nat) || (n =? 32)%nat || (n =? 160)%nat.

Fixpoint trim_left (s : string) : string :=
  match s with
  | String c r => if is_ws c then trim_left r else s
  | EmptyString => EmptyString
  end.

Fixpoint trim_right (s : string) : string :=
  match s with
  | EmptyString => EmptyString
  | String c r =>
      match trim_right r with
      | EmptyString => if is_ws c then EmptyString else String c EmptyString
      | r' => String c r'
      end
  end.

(** The digits of a radix up to sixteen, in either case. *)
Definition radix_digit (radix : Z) (c : ascii) : option Z :=
  let n := nat_of_ascii c in
  let d :=
    if (48 <=? n)%nat && (n <=? 57)%nat then Some (Z.of_nat (n - 48))
    else if (97 <=? n)%nat && (n <=? 102)%nat then Some (Z.of_nat (n - 87))
    else if (65 <=? n)%nat && (n <=? 70)%nat then Some (Z.of_nat (n - 55))
    else None in
  match d with
  | Some z => if (z <? radix)%Z then Some z else None
  | None => None
  end.

(** The longest run of digits at the head of [s]: its value on top of [acc],
    its length on top of [count], and the text after it. *)
Fixpoint read_digits (radix : Z) (s : string) (acc count : Z)
  : Z * Z * string :=
  match s with
  | EmptyString => (acc, count, s)
  | String c r =>
      match radix_digit radix c with
      | Some d => read_digits radix r (radix * acc + d)%Z (count + 1)%Z
      | None => (acc, count, s)
      end
  end.

(** A text made of one digit or more. *)
Definition all_digits (radix : Z) (s : string) : option Z :=
  let '(z, n, rest) := read_digits radix s 0%Z 0%Z in
  if (0 <? n)%Z && String.eqb rest EmptyString then Some z else None.

(** NonDecimalIntegerLiteral: [0x], [0o] and [0b] in either case. *)
Definition radix_literal (s : string) : option Z :=
  match s with
  | String "0"%char (String c r) =>
      if Ascii.eqb c "x"%char || Ascii.eqb c "X"%char then all_digits 16 r
      else if Ascii.eqb c "o"%char || Ascii.eqb c "O"%char then all_digits 8 r
      else if Ascii.eqb c "b"%char || Ascii.eqb c "B"%char then all_digits 2 r
      else None
  | _ => None
  end.

(** ExponentPart, or nothing. *)
Definition read_exponent (s : string) : option Z :=
  match s with
  | EmptyString => Some 0%Z
  | String c r =>
      if Ascii.eqb c "e"%char || Ascii.eqb c "E"%char then
        match r with
        | String "+"%char t => all_digits 10 t
        | String "-"%char t => option_map Z.opp (all_digits 10 t)
        | _ => all_digits 10 r
        end
      else None
  end.

(** StrUnsignedDecimalLiteral but for [Infinity]: digits with an optional
    fraction and exponent, at least one digit before the exponent.  The
    answer is the digit string as a natural and the power of ten it is
    scaled by. *)
Definition unsigned_decimal (s : string) : option (Z * Z) :=
  let '(i, ni, r1) := read_digits 10 s 0%Z 0%Z in
  let '(d, nf, r2) :=
    match r1 with
    | String "."%char t => read_digits 10 t i 0%Z
    | _ => (i, 0%Z, r1)
    end in
  if (0 <? ni + nf)%Z then
    match read_exponent r2 with
    | Some x => Some (d, (x - nf)%Z)
    | None => None
    end
  else None.

(** StrDecimalLiteral without its sign. *)
Definition unsigned_literal (neg : bool) (s : string) : num :=
  if String.eqb s "Infinity" then Dbl (S754_infinity neg)
  else match unsigned_decimal s with
       | Some (d, e) => of_SF (SF_of_decimal neg d e)
       | None => NaN
       end.

(** StringToNumber: surrounding white space is dropped and the empty string
    is 0; a radix literal is its integer; a decimal literal, signed or not,
    is the double nearest its value; any other text (the dash placeholder of
    the helper, for one) is NaN. *)
Definition string_to_number (s : string) : num :=
  let t := trim_right (trim_left s) in
  match t with
  | EmptyString => Fin 0
  | String c r =>
      match radix_literal t with
      | Some z => of_SF (SF_of_Z z)
      | None =>
          if Ascii.eqb c "+"%char then unsigned_literal false r
          else if Ascii.eqb c "-"%char then unsigned_literal true r
          else unsigned_literal false t
      end
  end.

(** ToNumber. *)
Definition to_number (v : value) : result num :=
  p <- to_primitive v ;;
  match p with
  | VUndef => Ok NaN
  | VNull => Ok (Fin 0)
  | VBool true => Ok (Fin 1)
  | VBool false => Ok (Fin 0)
  | VNum n => Ok n
  | VStr s => Ok (string_to_number s)
  | _ => Ok NaN
  end.

(** ** Operators *)

(** IsLessThan: [None] is the undefined answer of a comparison with NaN. *)
Definition is_less_than (x y : value) : result (option bool) :=
  px <- to_primitive x ;;
  py <- to_primitive y ;;
  match px, py with
  | VStr a, VStr b => Ok (Some (String.ltb a b))
  | _, _ =>
      nx <- to_number px ;;
      ny <- to_number py ;;
      Ok (num_lt nx ny)
  end.

(** [x >= y]. *)
Definition js_ge (x y : value) : result bool :=
  r <- is_less_than x y ;;
  match r with
  | Some false => Ok true
  | _ => Ok false
  end.

(** [x > y]. *)
Definition js_gt (x y : value) : result bool :=
  r <- is_less_than y x ;;
  match r with
  | Some true => Ok true
  | _ => Ok false
  end.

(** [x - y]. *)
Definition js_sub (x y : value) : result value :=
  nx <- to_number x ;;
  ny <- to_number y ;;
  Ok (VNum (num_sub nx ny)).

(** [x === y] against a string or a number literal.  The literal is a small
    integer (1 in the helper), which no other integer rounds to. *)
Definition strict_eq_string (x : value) (s : string) : bool :=
  match x with
  | VStr t => String.eqb t s
  | _ => false
  end.

Definition strict_eq_int (x : value) (z : Z) : bool :=
  match x with
  | VNum (Fin a) => (a =? z)%Z
  | VNum (Dbl f) => SFeqb f (SF_of_Z z)
  | _ => false
  end.

(** GetSubstitution for a string pattern (no capture groups): [$$] is a
    dollar, [$&] the match, [$`] the text before it, [$'] the text after it;
    any other dollar is literal. *)
Fixpoint get_substitution (matched before after repl : string) : string :=
  match repl with
  | EmptyString => EmptyString
  | String c t =>
      if Ascii.eqb c "$"%char then
        match t with
        | String d t' =>
            if Ascii.eqb d "$"%char then
              String "$"%char (get_substitution matched before after t')
            else if Ascii.eqb d "&"%char then
              matched +:+ get_substitution matched before after t'
            else if Ascii.eqb d "`"%char then
              before +:+ get_substitution matched before after t'
            else if Ascii.eqb d "'"%char then
              after +:+ get_substitution matched before after t'
            else String c (get_substitution matched before after t)
        | EmptyString => String c EmptyString
        end
      else String c (get_substitution matched before after t)
  end.

(** [s.replace(pat, repl)] with a string pattern: the first occurrence only. *)
Definition replace (s pat repl : string) : string :=
  match String.index 0 pat s with
  | None => s
  | Some i =>
      let j := (i + String.length pat)%nat in
      let before := substring 0 i s in
      let after := substring j (String.length s - j) s in
      before +:+ get_substitution pat before after repl +:+ after
  end.

End JS.

(** * The profiling helper panel *)

Module HelperPanel.
Import JS.
Local Open Scope js_scope.

(** ** Component state *)

(** The reactive data of the component together with what its response
    handler reads and writes outside of it: the live message table of the
    i18n plugin and the two DOM insertion points. *)
Record panel : Type := mkPanel {
  (* [this.$t('profiling')]: the message table, shared and mutable *)
  profiling : gmap string value;
  adviceShow : string;
  adviceOptimize : bool;
  adviceNotOptimize : bool;
  (* the array [innerHTMLs] of the response handler that ran last *)
  innerHTMLs : list string;
  (* [innerHTML] of [#helper-tips]; [None] when the element is not in the
     document *)
  helper_tips : option string;
  (* [innerHTML] of [#ms-advice-content] *)
  ms_advice_content : option string;
  (* every [innerHTML] assignment so far, oldest first: element id, text *)
  dom_writes : list (string * string)
}.

Definition tipsArrayList : list string :=
  [ "step_trace-iter_interval";
    "minddata_pipeline-general";
    "minddata_pipeline-dataset_op";
    "minddata_pipeline-generator_op";
    "minddata_pipeline-map_op";
    "minddata_pipeline-batch_op";
    "minddata_cpu_utilization";
    "minddata_device_queue_rate" ].

Definition moreParameter : list string :=
  [ "minddata_device_queue"; "minddata_get_next_queue"; "device_queue_warning" ].

(** [helperUrl] is [''] in [data()] and ['url'] once [created()] has run,
    which is before [mounted()] starts the request. *)
Definition helperUrl : string := "url".

(** [data()] for a message table [P], with both insertion points rendered
    and empty. *)
Definition data (P : gmap string value) : panel :=
  {| profiling := P;
     adviceShow := "none";
     adviceOptimize := false;
     adviceNotOptimize := false;
     innerHTMLs := [];
     helper_tips := Some EmptyString;
     ms_advice_content := Some EmptyString;
     dom_writes := [] |}.

(** ** The handler monad: state that survives an exception *)

Definition M (A : Type) : Type := panel -> result A * panel.

Definition ret {A} (a : A) : M A := fun s => (Ok a, s).

Definition bindM {A B} (c : M A) (k : A -> M B) : M B :=
  fun s =>
    match c s with
    | (Ok a, s') => k a s'
    | (Throw, s') => (Throw, s')
    end.

Definition lift {A} (r : result A) : M A := fun s => (r, s).

Definition gets {A} (f : panel -> A) : M A := fun s => (Ok (f s), s).

Definition modify (f : panel -> panel) : M unit := fun s => (Ok tt, f s).

Notation "x <~ c ;; k" := (bindM c (fun x => k))
  (at level 100, c at next level, right associativity) : js_scope.

Definition set_profiling (P : gmap string value) (s : panel) : panel :=
  {| profiling := P;
     adviceShow := adviceShow s;
     adviceOptimize := adviceOptimize s;
     adviceNotOptimize := adviceNotOptimize s;
     innerHTMLs := innerHTMLs s;
     helper_tips := helper_tips s;
     ms_advice_content := ms_advice_content s;
     dom_writes := dom_writes s |}.

Definition set_adviceShow (x : string) (s : panel) : panel :=
  {| profiling := profiling s;
     adviceShow := x;
     adviceOptimize := adviceOptimize s;
     adviceNotOptimize := adviceNotOptimize s;
     innerHTMLs := innerHTMLs s;
     helper_tips := helper_tips s;
     ms_advice_content := ms_advice_content s;
     dom_writes := dom_writes s |}.

Definition set_adviceOptimize (b : bool) (s : panel) : panel :=
  {| profiling := profiling s;
     adviceShow := adviceShow s;
     adviceOptimize := b;
     adviceNotOptimize := adviceNotOptimize s;
     innerHTMLs := innerHTMLs s;
     helper_tips := helper_tips s;
     ms_advice_content := ms_advice_content s;
     dom_writes := dom_writes s |}.

Definition set_adviceNotOptimize (b : bool) (s : panel) : panel :=
  {| profiling := profiling s;
     adviceShow := adviceShow s;
     adviceOptimize := adviceOptimize s;
     adviceNotOptimize := b;
     innerHTMLs := innerHTMLs s;
     helper_tips := helper_tips s;
     ms_advice_content := ms_advice_content s;
     dom_writes := dom_writes s |}.

Definition set_innerHTMLs (l : list string) (s : panel) : panel :=
  {| profiling := profiling s;
     adviceShow := adviceShow s;
     adviceOptimize := adviceOptimize s;
     adviceNotOptimize := adviceNotOptimize s;
     innerHTMLs := l;
     helper_tips := helper_tips s;
     ms_advice_content := ms_advice_content s;
     dom_writes := dom_writes s |}.

(** [const helper = document.getElementById('helper-tips');
     if (helper) helper.innerHTML = html;] *)
Definition write_helper_tips (html : string) (s : panel) : panel :=
  match helper_tips s with
  | Some _ =>
      {| profiling := profiling s;
         adviceShow := adviceShow s;
         adviceOptimize := adviceOptimize s;
         adviceNotOptimize := adviceNotOptimize s;
         innerHTMLs := innerHTMLs s;
         helper_tips := Some html;
         ms_advice_content := ms_advice_content s;
         dom_writes := dom_writes s ++ [("helper-tips", html)] |}
  | None => s
  end.

(** [const msAdvice = document.getElementById('ms-advice-content');
     if (msAdvice) msAdvice.innerHTML = html;] *)
Definition write_ms_advice (html : string) (s : panel) : panel :=
  match ms_advice_content s with
  | Some _ =>
      {| profiling := profiling s;
         adviceShow := adviceShow s;
         adviceOptimize := adviceOptimize s;
         adviceNotOptimize := adviceNotOptimize s;
         innerHTMLs := innerHTMLs s;
         helper_tips := helper_tips s;
         ms_advice_content := Some html;
         dom_writes := dom_writes s ++ [("ms-advice-content", html)] |}
  | None => s
  end.

(** [innerHTMLs.push(html)]. *)
Definition push (html : string) : M unit :=
  modify (fun s => set_innerHTMLs (innerHTMLs s ++ [html]) s).

(** [this.$t('profiling')[key]]: the table's own entry, and [undefined] for
    a missing key.  The table's prototype and Vue's observer are not part of
    [P]; the names they answer for are [Observe.reserved_names]. *)
Definition message (P : gmap string value) (key : string) : value :=
  default VUndef (P !! key).


(** ** Markup templates

    The template literals of the source, line breaks and indentation
    included. *)

Definition div_open (class : string) : string :=
  "<div class=" +:+ q class +:+ ">".

(** The titled suggestion of a [..type_label] field. *)
Definition suggested_item (desc : string) : string :=
  div_open "suggested-items-style" +:+
  ln 25 +:+ div_open "helper-icon" +:+ "</div>" +:+
  ln 25 +:+ div_open "helper-container-title" +:+
  ln 27 +:+ desc +:+
  ln 25 +:+ "</div>" +:+
  ln 23 +:+ "</div>".

(** A tip line: caret icon and content.  [n] is the indentation of the inner
    lines of the literal (25 everywhere but in the multi-anchor branch, which
    sits one block deeper in the source). *)
Definition content_item (n : nat) (content : string) : string :=
  div_open "content-style" +:+
  ln n +:+ div_open "content-icon el-icon-caret-right" +:+ "</div>" +:+
  ln n +:+ div_open "helper-content-style" +:+ content +:+ "</div>" +:+
  ln (n - 2) +:+ "</div>".

(** A tip line whose whole description is one hyperlink. *)
Definition linked_item (href desc : string) : string :=
  div_open "content-style" +:+
  ln 27 +:+ div_open "content-icon el-icon-caret-right" +:+ "</div>" +:+
  ln 27 +:+ div_open "helper-content-style" +:+
  ln 29 +:+ "<a target=" +:+ q "_blank" +:+ " href=" +:+ q href +:+ ">" +:+
  ln 31 +:+ desc +:+
  ln 29 +:+ "</a>" +:+
  ln 27 +:+ "</div>" +:+
  ln 25 +:+ "</div>".

(** The replacement text of one anchor in the multi-anchor branch. *)
Definition anchor_link (href anchor : string) : string :=
  "<a target=" +:+ q "_blank" +:+ " href=" +:+ q href +:+ ">" +:+
  ln 22 +:+ anchor +:+ "</a>".

(** The default line: the description alone. *)
Definition plain_item (desc : string) : string :=
  div_open "content-style" +:+
  ln 25 +:+ desc +:+
  ln 23 +:+ "</div>".

Definition nowrap (text : string) : string :=
  "<span class=" +:+ q "nowrap-style" +:+ "> " +:+ text +:+ "</span>".

Definition detail_open : string :=
  "<span class=" +:+ q "expert-advice" +:+ "><span class=" +:+
  q "advice-detail" +:+ ">".

Definition detail_close : string := "</span></span>".

Definition recommendation : string :=
  "Recommendations of aicpu operations optimization:".

Section Dispatch.

(** The i18n plugin is outside the repository.  [i18n_format path m values] is
    what [this.$t(path, values)] returns when the entry [m] found at [path] is
    a text (or is missing, in which case the plugin falls back on the path):
    the text after interpolation of [values]. *)
Variable i18n_format : string -> value -> value -> string.

(** Modelled from the spec: [this.$t(path, values)], the keyed text-lookup
    facility of the i18n plugin, which is not under src/.  An entry that is a
    list or a table is handed back as it is (the source indexes
    [this.$t('profiling.adviceDetails')], the fixed localized ordinal list);
    any other entry is rendered as text. *)
Definition t (path : string) (m values : value) : value :=
  match m with
  | VArr _ | VObj _ => m
  | _ => VStr (i18n_format path m values)
  end.

(** The entry one level below a message: [profiling.item.sub] when it exists. *)
Definition submessage (m : value) (sub : string) : value :=
  match m with
  | VObj fs => default VUndef (assoc sub fs)
  | _ => VUndef
  end.

(** [`${x.desc}`] *)
Definition desc_text (d : value) : result string :=
  x <- get_prop d "desc" ;;
  to_string x.

(** [v.forEach(...)]: only an array has the method. *)
Definition forEach_elems (v : value) : result (list value) :=
  match v with
  | VArr l => Ok l
  | _ => Throw
  end.

(** ** [getAdvisorProposer] *)

(** [item.value[0].forEach((val, index) => { detail += `<p>...</p>` })] *)
Fixpoint detail_entries (P : gmap string value) (vals : list value)
    (index : nat) (detail : string) : result string :=
  match vals with
  | [] => Ok detail
  | _ :: rest =>
      x <- get_index
             (t "profiling.adviceDetails" (message P "adviceDetails") VUndef)
             index ;;
      text <- to_string x ;;
      detail_entries P rest (S index) (detail +:+ "<p>" +:+ text +:+ "</p>")
  end.

(** The callback of [data[item].extend.forEach]. *)
Definition extend_entry (P : gmap string value) (item : value)
    (contents : list string) : result (list string) :=
  has <- hasOwnProperty item "extendtitle" ;;
  if has then
    title <- get_prop item "extendtitle" ;;
    if strict_eq_string title recommendation then
      value <- get_prop item "value" ;;
      value0 <- get_index value 0 ;;
      vals <- forEach_elems value0 ;;
      detail <- detail_entries P vals 0 detail_open ;;
      Ok (contents ++ [detail +:+ detail_close])
    else Ok contents
  else Ok contents.

Fixpoint extend_forEach (P : gmap string value) (entries : list value)
    (contents : list string) : result (list string) :=
  match entries with
  | [] => Ok contents
  | item :: rest =>
      contents' <- extend_entry P item contents ;;
      extend_forEach P rest contents'
  end.

Definition getAdvisorProposer (data : value) (item : string)
    : M (list string) :=
  model <~ lift (get_prop data item) ;;
  has <~ lift (hasOwnProperty model "extend") ;;
  if negb has then
    _ <~ modify (set_adviceNotOptimize true) ;;
    ret []
  else
    _ <~ modify (set_adviceOptimize true) ;;
    P <~ gets profiling ;;
    lift (extend <- get_prop model "extend" ;;
          entries <- forEach_elems extend ;;
          extend_forEach P entries []).

(** ** The branches of the dispatch *)

(** The content of a field of [tipsArrayList]. *)
Definition tip_content (P : gmap string value) (item : string) (v : value)
    : result string :=
  if String.eqb item "minddata_device_queue_rate" then
    empty_rate <- get_prop v "empty_rate" ;;
    threshold <- get_prop v "empty_warning_threshold" ;;
    over <- js_gt empty_rate threshold ;;
    if over then
      to_string (t ("profiling." +:+ item +:+ ".empty_rate")
                   (submessage (message P item) "empty_rate") v)
    else
      to_string (t ("profiling." +:+ item +:+ ".empty_warning_threshold")
                   (submessage (message P item) "empty_warning_threshold") v)
  else
    desc <- desc_text (message P item) ;;
    first <- get_index v 0 ;;
    n1 <- to_string first ;;
    Ok (replace desc "{n1}" n1).

(** [const [queueStart, queueEnd] = v]: the value has to be iterable. *)
Definition destructure_pair (v : value) : result (value * value) :=
  match v with
  | VArr l => Ok (nth 0 l VUndef, nth 1 l VUndef)
  | VStr s => Ok (char_at s 0, char_at s 1)
  | _ => Throw
  end.

(** The content of [minddata_device_queue] and of [minddata_get_next_queue]
    (the source spells the same statements out twice). *)
Definition queue_content (P : gmap string value) (item : string) (v : value)
    : result string :=
  pair <- destructure_pair v ;;
  let queueStart := fst pair in
  let queueEnd := snd pair in
  startOk <- js_ge queueStart (VNum (Fin 0)) ;;
  let deviceEmpty := if startOk then queueStart else VStr "--" in
  endOk <- js_ge queueEnd (VNum (Fin 0)) ;;
  let deviceTotal := if endOk then queueEnd else VStr "--" in
  desc <- desc_text (message P item) ;;
  n1 <- to_string deviceEmpty ;;
  n2 <- to_string deviceTotal ;;
  delta <- js_sub deviceTotal deviceEmpty ;;
  n3 <- to_string delta ;;
  n4 <- to_string deviceTotal ;;
  Ok (replace
        (replace
           (replace
              (replace desc "{n1}" (nowrap n1))
              "{n2}" (nowrap n2))
           "{n3}" (nowrap n3))
        "{n4}" (nowrap n4)).

(** Calling what a property read produced.  The receivers of the source are
    texts and JSON data, whose properties are never functions: the call is a
    TypeError. *)
Definition call_method (method : value) (args : list value) : result value :=
  Throw.

(** The body of [for (let i = 0; i < anchorList.length; i++)], run for
    [i], [i+1], ...  The method asked of [anchorContent] is [relpace]. *)
Fixpoint anchor_loop (d anchorList : value) (count i : nat)
    (anchorContent : value) : result value :=
  match count with
  | O => Ok anchorContent
  | S count' =>
      method <- get_prop anchorContent "relpace" ;;
      anchor <- get_index anchorList i ;;
      urls <- get_prop d helperUrl ;;
      url <- get_index urls i ;;
      href <- to_string url ;;
      text <- to_string anchor ;;
      desc <- call_method method [anchor; VStr (anchor_link href text)] ;;
      anchor_loop d anchorList count' (S i) desc
  end.

(** How often [i < len] holds for [i = 0, 1, ...]: the least natural that
    is not below [len].  Under an infinite length the test never fails; one
    turn stands for that, and no run gets past its first turn (see
    [call_method]). *)
Definition loop_count (len : value) : result nat :=
  n <- to_number len ;;
  match n with
  | Fin z => Ok (Z.to_nat z)
  | Dbl (S754_finite false m e) =>
      Ok (Z.to_nat (if (0 <=? e)%Z then Zpos m * 2 ^ e
                    else (Zpos m + 2 ^ (- e) - 1) / 2 ^ (- e))%Z)
  | Dbl (S754_infinity false) => Ok 1%nat
  | Dbl _ => Ok O
  | NaN => Ok O
  end.

(** The two last branches: a descriptor with an [anchor], and the default. *)
Definition anchor_or_default (d : value) : result string :=
  anchor <- get_prop d "anchor" ;;
  if truthy anchor then
    len <- get_prop anchor "length" ;;
    if strict_eq_int len 1 then
      urls <- get_prop d helperUrl ;;
      url <- get_index urls 0 ;;
      href <- to_string url ;;
      desc <- desc_text d ;;
      Ok (linked_item href desc)
    else
      anchorContent <- get_prop d "desc" ;;
      count <- loop_count len ;;
      anchorContent' <- anchor_loop d anchor count 0 anchorContent ;;
      content <- to_string anchorContent' ;;
      Ok (content_item 27 content)
  else
    desc <- desc_text d ;;
    Ok (plain_item desc).

(** ** The callback of [Object.keys(res.data).forEach] *)

(** Step 1, [this.$t('profiling')[item] = res.data[item]]: an own entry is
    stored or replaced (under [__proto__], a reserved name, the assignment
    would reach the prototype instead). *)
Definition record_message (item : string) (v : value) : M unit :=
  if negb (includes tipsArrayList item) && negb (includes moreParameter item)
     && truthy v
  then modify (fun s => set_profiling (<[item := v]> (profiling s)) s)
  else ret tt.

Definition render_item (item : string) (v : value) : M unit :=
  P <~ gets profiling ;;
  if endsWith item "type_label"
     && negb (String.eqb item "msadvisor-proposer_type_label") then
    desc <~ lift (desc_text (message P item)) ;;
    push (suggested_item desc)
  else if includes tipsArrayList item then
    content <~ lift (tip_content P item v) ;;
    push (content_item 25 content)
  else if String.eqb item "minddata_device_queue" then
    content <~ lift (queue_content P item v) ;;
    push (content_item 25 content)
  else if String.eqb item "minddata_get_next_queue" then
    content <~ lift (queue_content P item v) ;;
    push (content_item 25 content)
  else
    warn <~ lift (if String.eqb item "device_queue_warning"
                  then len <- get_prop v "length" ;; Ok (truthy len)
                  else Ok false) ;;
    if warn then
      content <~ lift (desc_text (message P item)) ;;
      push (content_item 25 content)
    else if String.eqb item "msadvisor-proposer_type_label"
            || String.eqb item "msadvisor-proposer" then
      if String.eqb item "msadvisor-proposer" then
        contents <~ getAdvisorProposer v "AICPUModel" ;;
        modify (write_ms_advice (join EmptyString contents))
      else ret tt
    else
      html <~ lift (anchor_or_default (message P item)) ;;
      push html.

Definition process_item (data : value) (item : string) : M unit :=
  v <~ lift (get_prop data item) ;;
  _ <~ record_message item v ;;
  _ <~ render_item item v ;;
  modify (fun s => write_helper_tips (join EmptyString (innerHTMLs s)) s).

Fixpoint forEach_keys (data : value) (keys : list string) : M unit :=
  match keys with
  | [] => ret tt
  | item :: rest =>
      _ <~ process_item data item ;;
      forEach_keys data rest
  end.

(** ** [getDataOfProfileHelper] *)

(** The outcome of [RequestService.queryDataOfProfileHelper(params)]. *)
Inductive response : Type :=
| Rejected
| Resolved (res : value).

(** The [then] handler. *)
Definition on_response (res : value) : M unit :=
  if truthy res then
    data <~ lift (get_prop res "data") ;;
    if truthy data then
      _ <~ modify (set_innerHTMLs []) ;;
      keys <~ lift (object_keys data) ;;
      forEach_keys data keys
    else ret tt
  else ret tt.

(** [.then(...).catch(() => {})]: whatever the handler threw is dropped, and
    the state it had reached stays. *)
Definition getDataOfProfileHelper (r : response) (s : panel) : panel :=
  match r with
  | Rejected => s
  | Resolved res => snd (on_response res s)
  end.

(** The handler's own verdict, which the [catch] hides. *)
Definition handler_completed (res : value) (s : panel) : bool :=
  match fst (on_response res s) with
  | Ok _ => true
  | Throw => false
  end.

End Dispatch.

(** ** The toggle of the expert advice *)

Definition adviceToShow (s : panel) : panel :=
  set_adviceShow (if String.eqb (adviceShow s) "block" then "none" else "block") s.

Definition adviceChange (s : panel) : bool :=
  if String.eqb (adviceShow s) "block" then true else false.

End HelperPanel.

(** * The SVG sizing wrapper *)

Module SvgFrame.

(** What [getBoundingClientRect()] reports: two real measurements, taken
    here as rationals. *)
Record rect : Type := mkRect {
  rect_width : Q;
  rect_height : Q
}.

Record frame : Type := mkFrame {
  width : Z;
  height : Z
}.

Definition data : frame := {| width := 0; height := 0 |}.

(** [mounted()] measures [this.$refs.$wrapper]. *)
Definition mounted (wrapper : rect) (s : frame) : frame :=
  {| width := Qfloor (rect_width wrapper);
     height := Qfloor (rect_height wrapper) |}.

(** The [svg] element of the template with the slot properties it passes on. *)
Record svg : Type := mkSvg {
  svg_width : Z;
  svg_height : Z;
  viewBox : string;
  slot_width : Z;
  slot_height : Z
}.

(** The template: [v-if="width > 0 && height > 0"]. *)
Definition template (s : frame) : option svg :=
  if (0 <? width s)%Z && (0 <? height s)%Z then
    Some {| svg_width := width s;
            svg_height := height s;
            viewBox := "0 0 " +:+ JS.Z_to_string (width s) +:+ " " +:+
                       JS.Z_to_string (height s);
            slot_width := width s;
            slot_height := height s |}
  else None.

(** What happens to a mounted instance.  The component declares [data] and
    [mounted] and nothing else: no watcher, no resize observer. *)
Inductive event : Type :=
| Mounted (wrapper : rect)
| ContainerResized (wrapper : rect).

Definition handle (s : frame) (e : event) : frame :=
  match e with
  | Mounted wrapper => mounted wrapper s
  | ContainerResized _ => s
  end.

Definition lifecycle (events : list event) : frame :=
  fold_left handle events data.

End SvgFrame.

(** * Sample data *)

Module Samples.
Import JS HelperPanel.

(** A formatter that shows the text of an entry, or the path when there is
    no text. *)
Definition show_text (path : string) (m values : value) : string :=
  match m with
  | VStr text => text
  | _ => path
  end.

Definition descriptor (desc : string) : value :=
  VObj [("desc", VStr desc)].

Definition anchored (desc : string) (anchors urls : list string) : value :=
  VObj [("desc", VStr desc);
        ("anchor", VArr (map VStr anchors));
        ("url", VArr (map VStr urls))].

(** A message table in the shape of the locale files. *)
Definition messages : gmap string value :=
  <["adviceDetails" := VArr [VStr "first"; VStr "second"; VStr "third"]]>
  (<["minddata_device_queue_rate" :=
       VObj [("empty_rate", VStr "queue often empty");
             ("empty_warning_threshold", VStr "queue fine")]]>
  (<["minddata_device_queue" :=
       descriptor "empty {n1} of {n2}, busy {n3} of {n4}"]>
  (<["device_queue_warning" := descriptor "queue data may be incomplete"]>
  (<["common-proposer_type_label" := descriptor "Common"]>
  (<["common-profiler_tutorial" :=
       anchored "read the tutorial" ["tutorial"] ["https://a"]]>
  (<["op-proposer" :=
       anchored "see section one and section two"
                ["section one"; "section two"] ["https://b"; "https://c"]]>
  ∅)))))).

Definition axios (data : value) : response :=
  Resolved (VObj [("status", VNum (Fin 200)); ("data", data)]).

Definition fetch (data : value) (s : panel) : panel :=
  getDataOfProfileHelper show_text (axios data) s.

(** A label and a tutorial link, the second one read after the first. *)
Definition two_fields : value :=
  VObj [("common-proposer_type_label", VNull);
        ("common-profiler_tutorial", VNull)].

(** A label whose value is a descriptor of the backend's own, which step 1
    records in the table, and a tutorial link. *)
Definition recorded_label : value :=
  VObj [("common-proposer_type_label", descriptor "From the backend");
        ("common-profiler_tutorial", VNull)].

(** A label, then a field the message table does not know. *)
Definition unknown_second : value :=
  VObj [("common-proposer_type_label", VNull);
        ("brand_new_tip", VNull)].

Definition proposer (extend : list value) : value :=
  VObj [("AICPUModel", VObj [("extend", VArr extend)])].

Definition advice (title : string) (vals : list value) : value :=
  VObj [("extendtitle", VStr title); ("value", VArr [VArr vals])].

(** A recommendation whose [value] list has two items, the first of three
    operators. *)
Definition two_value_items : value :=
  VObj [("extendtitle", VStr recommendation);
        ("value", VArr [VArr [VStr "Cast"; VStr "Mul"; VStr "Add"];
                        VArr [VStr "Sub"]])].

(** An advisor payload, then a field that happens to be called
    [adviceDetails] and holds an object no text can be made of, then a
    label. *)
Definition own_adviceDetails : value :=
  VObj [("msadvisor-proposer", proposer [advice recommendation [VStr "Cast"]]);
        ("adviceDetails", VArr [VObj [("toString", VNum (Fin 1))]]);
        ("common-proposer_type_label", VNull)].

End Samples.

(** * Observations on a panel *)

Module Observe.
Import JS HelperPanel.

(** The texts assigned to [#helper-tips], oldest first. *)
Definition helper_writes (s : panel) : list string :=
  map snd (List.filter (fun w => String.eqb (fst w) "helper-tips") (dom_writes s)).

(** The states a panel goes through: created by [data()], then any number of
    clicks on the advice title and of answered requests. *)
Inductive reachable (i18n_format : string -> value -> value -> string)
    : panel -> Prop :=
| reach_data (P : gmap string value) : reachable i18n_format (data P)
| reach_click (s : panel) :
    reachable i18n_format s -> reachable i18n_format (adviceToShow s)
| reach_fetch (r : response) (s : panel) :
    reachable i18n_format s ->
    reachable i18n_format (getDataOfProfileHelper i18n_format r s).

(** The three things a user can see of the two insertion points. *)
Definition dom (s : panel)
    : option string * option string * list (string * string) :=
  (helper_tips s, ms_advice_content s, dom_writes s).

Definition same_dom (s s' : panel) : Prop := dom s' = dom s.

(** [quiet c]: when [c] throws, it has not touched the insertion points. *)
Definition quiet {A} (c : M A) : Prop :=
  forall s, fst (c s) = Throw -> dom (snd (c s)) = dom s.

(** [s'] shows in [#helper-tips] what [s] shows, and wrote to it what [s]
    wrote. *)
Definition same_helper (s s' : panel) : Prop :=
  helper_tips s' = helper_tips s /\ helper_writes s' = helper_writes s.

(** The part of [process_item] that precedes the write to [#helper-tips]. *)
Definition before_write i18n_format (data : value) (item : string) : M unit :=
  (v <~ lift (get_prop data item) ;;
   _ <~ record_message item v ;;
   render_item i18n_format item v)%js.

(** The field names [Object.keys(res.data)] enumerates, when the handler gets
    that far. *)
Definition response_fields (res : value) : list string :=
  if truthy res then
    match get_prop res "data" with
    | Ok data =>
        if truthy data then
          match object_keys data with
          | Ok keys => keys
          | Throw => []
          end
        else []
    | Throw => []
    end
  else [].

(** The message table is a plain object that vue-i18n keeps reactive.  Under
    these names it answers without holding an entry of its own: with a
    member of [Object.prototype], with its prototype ([__proto__], whose
    assignment replaces the prototype instead of storing an entry), or with
    the observer Vue attaches to reactive data ([__ob__]).  Under every other
    name it answers with its own entry or with [undefined], which is what
    [message] computes. *)
Definition reserved_names : list string :=
  [ "__proto__"; "constructor"; "hasOwnProperty"; "isPrototypeOf";
    "propertyIsEnumerable"; "toLocaleString"; "toString"; "valueOf";
    "__defineGetter__"; "__defineSetter__"; "__lookupGetter__";
    "__lookupSetter__"; "__ob__" ].

Definition ordinary (item : string) : bool :=
  negb (includes reserved_names item).

(** The field names of an answer; a rejected request has none. *)
Definition answer_fields (r : response) : list string :=
  match r with
  | Rejected => []
  | Resolved res => response_fields res
  end.

(** [overwritten data P P']: the table [P'] is [P] except at field names that
    step 1 of the dispatch records, where it holds the field's value. *)
Definition overwritten (data : value) (P P' : gmap string value) : Prop :=
  forall k,
    P' !! k = P !! k \/
    (includes tipsArrayList k = false /\
     includes moreParameter k = false /\
     exists v, get_prop data k = Ok v /\ truthy v = true /\ P' !! k = Some v).

(** [keeps data s s']: from [s] to [s'] the table changed only by what step 1
    records for [data], and the ordinal list did not change. *)
Definition keeps (data : value) (s s' : panel) : Prop :=
  overwritten data (profiling s) (profiling s') /\
  message (profiling s') "adviceDetails" = message (profiling s) "adviceDetails".

(** [agree data s s']: a second handler in [s'] sees what a first one saw in
    [s]: the same fragments so far, and a table as [keeps] describes. *)
Definition agree (data : value) (s s' : panel) : Prop :=
  innerHTMLs s' = innerHTMLs s /\ keeps data s s'.

Definition same_profiling (s s' : panel) : Prop := profiling s' = profiling s.

(** *** The advisor payload, read as data *)

(** An entry of [extend] that carries the fixed recommendation title. *)
Definition is_recommendation (e : value) : bool :=
  match e with
  | VObj fs =>
      match assoc "extendtitle" fs with
      | Some (VStr title) => String.eqb title recommendation
      | _ => false
      end
  | _ => false
  end.

(** The list the detail block enumerates: [value[0]] of the entry. *)
Definition sub_items (e : value) : list value :=
  match e with
  | VObj fs =>
      match assoc "value" fs with
      | Some (VArr (VArr vals :: _)) => vals
      | _ => []
      end
  | _ => []
  end.

(** An entry in the shape the backend sends: a JSON object, and when it is a
    recommendation its [value] is a list whose first element is a list. *)
Definition entry_ok (e : value) : bool :=
  match e with
  | VObj fs =>
      negb (has_key "hasOwnProperty" fs) &&
      (negb (is_recommendation e) ||
       match assoc "value" fs with
       | Some (VArr (VArr _ :: _)) => true
       | _ => false
       end)
  | _ => false
  end.

(** The ordinal printed for sub-item [i] from the localized list [names]. *)
Definition ordinal (names : list string) (i : nat) : string :=
  nth i names "undefined".

Definition paragraphs (names : list string) (start n : nat) : string :=
  fold_right String.append EmptyString
    (map (fun i => "<p>" +:+ ordinal names i +:+ "</p>") (seq start n)).

(** A detail block with one paragraph per sub-item. *)
Definition detail_block (names : list string) (n : nat) : string :=
  detail_open +:+ paragraphs names 0 n +:+ detail_close.

(** [stable R c]: whatever [c] does, completed or thrown, its final state is
    [R]-related to the state it started in. *)
Definition stable {A} (R : panel -> panel -> Prop) (c : M A) : Prop :=
  forall s, R s (snd (c s)).

End Observe.

(** * The rest of the template *)

Module Template.
Import JS HelperPanel.

(** What the title of the expert advice shows: the link when
    [adviceOptimize] holds ([v-if]), otherwise the plain text that no advice
    exists, which is visible only under [adviceNotOptimize] ([v-else] with
    [v-show]). *)
Inductive title : Type :=
| ExpertOpAdvice
| ExpertNoOpAdvice
| NoTitle.

Definition advice_title (s : panel) : title :=
  if adviceOptimize s then ExpertOpAdvice
  else if adviceNotOptimize s then ExpertNoOpAdvice
  else NoTitle.

(** [v-show="adviceChange()"] on [#ms-advice-content]. *)
Definition advice_content_shown (s : panel) : bool := adviceChange s.

(** The condition of step 1 of the dispatch: the field is recorded in the
    message table. *)
Definition recorded (item : string) (v : value) : bool :=
  negb (includes tipsArrayList item) && negb (includes moreParameter item)
  && truthy v.

(** A replacement text without a dollar sign. *)
Fixpoint no_dollar (r : string) : bool :=
  match r with
  | EmptyString => true
  | String c t => negb (Ascii.eqb c "$"%char) && no_dollar t
  end.

(** A flag that was up is still up. *)
Definition raised (b b' : bool) : Prop := implb b b' = true.

(** The states [getAdvisorProposer] can leave behind. *)
Definition flagged (s t : panel) : Prop :=
  t = s \/ t = set_adviceNotOptimize true s \/ t = set_adviceOptimize true s.

(** The states one turn of the dispatch can reach before its write to
    [#helper-tips]: one fragment pushed, or the advisor's flags raised and
    possibly its container written. *)
Definition rendered (s s' : panel) : Prop :=
  (exists x, s' = set_innerHTMLs (innerHTMLs s ++ [x]) s) \/
  (exists t, flagged s t /\
             (s' = t \/ exists html, s' = write_ms_advice html t)).

(** How a queue bound is displayed. *)
Definition shown_bound (z : Z) : string :=
  if (0 <=? z)%Z then Z_to_string z else "--".

End Template.

(** * Properties *)

Import JS HelperPanel Observe.
Local Open Scope js_scope.

(** ** Numbers *)

(** What [String(x)] gives on integers, fractions, the ends of the plain
    notation (10^21 and 10^-7), integers past 2^53, the smallest and the
    largest double. *)
Example number_texts :
  map num_to_string
    [ Fin 100; Fin (-7); number 1 (-1); number 35 (-2); number (-25) (-1);
      Fin (2 ^ 60); Fin (10 ^ 21 - 1); number 1 21; number 1 (-6);
      number 1 (-7); number 5 (-324); number 17976931348623157 292;
      Fin (2 ^ 53 + 1); number 1 400; NaN ] =
    [ "100"; "-7"; "0.1"; "0.35"; "-2.5";
      "1152921504606847000"; "1e+21"; "1e+21"; "0.000001";
      "1e-7"; "5e-324"; "1.7976931348623157e+308";
      "9007199254740992"; "Infinity"; "NaN" ].
Proof. vm_compute. reflexivity. Qed.

(** The arithmetic is the doubles': 0.3 - 0.1 is not 0.2. *)
Example number_differences :
  map num_to_string
    [ num_sub (number 3 (-1)) (number 1 (-1));
      num_sub (Fin 5) (number 5 (-1));
      num_sub (Fin (2 ^ 53)) (Fin (- 2 ^ 53));
      num_sub (Fin (2 ^ 53 + 1)) (Fin (2 ^ 53));
      num_sub (Dbl (S754_infinity false)) (Dbl (S754_infinity false)) ] =
    [ "0.19999999999999998"; "4.5"; "18014398509481984"; "0"; "NaN" ].
Proof. vm_compute. reflexivity. Qed.

Example number_comparisons :
  map (fun p => num_lt (fst p) (snd p))
    [ (number 2 (-1), number 35 (-2)); (number 35 (-2), number 2 (-1));
      (number 1 (-1), number 1 (-1)); (Fin 0, number 1 (-1));
      (Fin (2 ^ 53), Fin (2 ^ 53 + 1)); (NaN, Fin 1); (Fin 1, NaN);
      (Dbl (S754_infinity true), Fin 0) ] =
    [ Some true; Some false; Some false; Some true;
      Some false; None; None; Some true ].
Proof. vm_compute. reflexivity. Qed.

(** What [Number(s)] gives, shown as text. *)
Example string_to_number_texts :
  map (fun s => num_to_string (string_to_number s))
    [ ""; "  "; " 42 "; "+12"; "-12"; "00012"; "1.5"; ".5"; "5."; "1e3";
      "1E-3"; "0x1F"; "0b101"; "0o17"; "-0x10"; "Infinity"; "-Infinity";
      "infinity"; "1e"; "."; "--"; "12px"; "1e400"; "1e-400";
      "9007199254740993"; "0.30000000000000004" ] =
    [ "0"; "0"; "42"; "12"; "-12"; "12"; "1.5"; "0.5"; "5"; "1000";
      "0.001"; "31"; "5"; "15"; "NaN"; "Infinity"; "-Infinity";
      "NaN"; "NaN"; "NaN"; "NaN"; "NaN"; "Infinity"; "0";
      "9007199254740992"; "0.30000000000000004" ].
Proof. vm_compute. reflexivity. Qed.

Lemma safe_bounds (z : Z) :
  safe z = true <-> (- 9007199254740992 <= z <= 9007199254740992)%Z.
Proof. unfold safe. rewrite Z.leb_le. lia. Qed.

(** On the integers up to 2^53 the order, the difference and the text are
    the integers' own. *)
Lemma num_lt_safe (a b : Z) :
  safe a = true -> safe b = true -> num_lt (Fin a) (Fin b) = Some (a <? b)%Z.
Proof. intros Ha Hb. unfold num_lt. rewrite Ha, Hb. reflexivity. Qed.

Lemma num_sub_safe (a b : Z) :
  safe a = true -> safe b = true -> num_sub (Fin a) (Fin b) = Fin (a - b).
Proof. intros Ha Hb. unfold num_sub. rewrite Ha, Hb. reflexivity. Qed.

Lemma num_to_string_safe (z : Z) :
  safe z = true -> num_to_string (Fin z) = Z_to_string z.
Proof. intros Hz. unfold num_to_string. rewrite Hz. reflexivity. Qed.

(** ** What a handler leaves alone *)

Section Stable.

Variable R : panel -> panel -> Prop.
Hypothesis R_refl : forall s, R s s.
Hypothesis R_trans : forall s1 s2 s3, R s1 s2 -> R s2 s3 -> R s1 s3.

Lemma stable_ret {A} (a : A) : stable R (ret a).
Proof. intros s. apply R_refl. Qed.

Lemma stable_lift {A} (r : result A) : stable R (lift r).
Proof. intros s. apply R_refl. Qed.

Lemma stable_gets {A} (f : panel -> A) : stable R (gets f).
Proof. intros s. apply R_refl. Qed.

Lemma stable_modify (f : panel -> panel) :
  (forall s, R s (f s)) -> stable R (modify f).
Proof. intros H s. apply H. Qed.

Lemma stable_bind {A B} (c : M A) (k : A -> M B) :
  stable R c -> (forall a, stable R (k a)) -> stable R (bindM c k).
Proof.
  intros Hc Hk s. unfold bindM.
  specialize (Hc s). destruct (c s) as [[a|] s1]; simpl in *.
  - eapply R_trans; [exact Hc | apply Hk].
  - exact Hc.
Qed.

Lemma stable_if {A} (b : bool) (c1 c2 : M A) :
  stable R c1 -> stable R c2 -> stable R (if b then c1 else c2).
Proof. destruct b; auto. Qed.

Hypothesis R_profiling : forall P s, R s (set_profiling P s).
Hypothesis R_innerHTMLs : forall l s, R s (set_innerHTMLs l s).
Hypothesis R_optimize : forall b s, R s (set_adviceOptimize b s).
Hypothesis R_not_optimize : forall b s, R s (set_adviceNotOptimize b s).
Hypothesis R_ms_advice : forall html s, R s (write_ms_advice html s).

Variable i18n_format : string -> value -> value -> string.

Ltac stable_step :=
  lazymatch goal with
  | |- stable _ (ret _) => apply stable_ret
  | |- stable _ (lift _) => apply stable_lift
  | |- stable _ (gets _) => apply stable_gets
  | |- stable _ (modify _) => apply stable_modify; intro; auto
  | |- stable _ (bindM _ _) => apply stable_bind; [ | intro ]
  | |- stable _ (if _ then _ else _) => apply stable_if
  end.

Lemma stable_push (html : string) : stable R (push html).
Proof. unfold push. repeat stable_step. Qed.

Lemma stable_record_message (item : string) (v : value) :
  stable R (record_message item v).
Proof. unfold record_message. repeat stable_step. Qed.

Lemma stable_getAdvisorProposer (v : value) (item : string) :
  stable R (getAdvisorProposer i18n_format v item).
Proof. unfold getAdvisorProposer. repeat stable_step. Qed.

Lemma stable_render_item (item : string) (v : value) :
  stable R (render_item i18n_format item v).
Proof.
  unfold render_item.
  repeat first [ apply stable_push | apply stable_getAdvisorProposer | stable_step ].
Qed.

Hypothesis R_helper_tips : forall html s, R s (write_helper_tips html s).

Lemma stable_process_item (data : value) (item : string) :
  stable R (process_item i18n_format data item).
Proof.
  unfold process_item.
  repeat first [ apply stable_record_message | apply stable_render_item | stable_step ].
Qed.

Lemma stable_forEach_keys (data : value) (keys : list string) :
  stable R (forEach_keys i18n_format data keys).
Proof.
  induction keys as [|item rest IH]; simpl.
  - apply stable_ret.
  - apply stable_bind; [ apply stable_process_item | intros; exact IH ].
Qed.

Lemma stable_on_response (res : value) :
  stable R (on_response i18n_format res).
Proof.
  unfold on_response.
  repeat first [ apply stable_forEach_keys | stable_step ].
Qed.

End Stable.

(** ** The advice toggle *)

Lemma fetch_keeps_adviceShow i18n_format (r : response) (s : panel) :
  adviceShow (getDataOfProfileHelper i18n_format r s) = adviceShow s.
Proof.
  destruct r as [|res]; [reflexivity|]. simpl.
  apply (stable_on_response (fun s s' => adviceShow s' = adviceShow s));
    try reflexivity.
  - intros s1 s2 s3 H12 H23. congruence.
  - intros html s0. unfold write_ms_advice.
    destruct (ms_advice_content s0); reflexivity.
  - intros html s0. unfold write_helper_tips.
    destruct (helper_tips s0); reflexivity.
Qed.

Lemma reachable_adviceShow i18n_format (s : panel) :
  reachable i18n_format s ->
  adviceShow s = "none" \/ adviceShow s = "block".
Proof.
  induction 1 as [P | s Hs IH | r s Hs IH].
  - left; reflexivity.
  - unfold adviceToShow; simpl.
    destruct (String.eqb (adviceShow s) "block"); auto.
  - rewrite fetch_keeps_adviceShow. exact IH.
Qed.

(** C10.  In every state the panel can be in, two clicks on the advice title
    restore the state, one click flips what [adviceChange] answers, and
    [adviceChange] answers [true] exactly when [adviceShow] is ['block']. *)
Theorem adviceToShow_involutive i18n_format (s : panel) :
  reachable i18n_format s ->
  adviceToShow (adviceToShow s) = s /\
  adviceChange (adviceToShow s) = negb (adviceChange s) /\
  (adviceChange s = true <-> adviceShow s = "block").
Proof.
  intros Hs. apply reachable_adviceShow in Hs.
  destruct s as [P sh o n hs ht ms ws]; simpl in Hs.
  unfold adviceToShow, adviceChange, set_adviceShow; simpl.
  repeat split.
  - destruct Hs as [-> | ->]; reflexivity.
  - destruct (String.eqb sh "block"); reflexivity.
  - destruct (String.eqb sh "block") eqn:E; [intros _ | discriminate].
    apply String.eqb_eq. exact E.
  - intros ->. reflexivity.
Qed.

Lemma adviceToShow_involutive_witness :
  adviceToShow (adviceToShow (adviceToShow (data Samples.messages)))
    = adviceToShow (data Samples.messages) /\
  adviceChange (adviceToShow (adviceToShow (data Samples.messages)))
    = negb (adviceChange (adviceToShow (data Samples.messages))) /\
  (adviceChange (adviceToShow (data Samples.messages)) = true
   <-> adviceShow (adviceToShow (data Samples.messages)) = "block").
Proof.
  apply (adviceToShow_involutive Samples.show_text).
  apply reach_click. apply reach_data.
Defined.

(** ** The SVG frame *)

(** C9.  After the mount, and whatever the container does later, the frame
    holds the floors of the two measurements taken at the mount; the template
    yields an [svg] of exactly these dimensions when both are positive and no
    element at all otherwise. *)
Theorem svg_frame_measured_once (wrapper : SvgFrame.rect)
    (later : list SvgFrame.rect) :
  let s := SvgFrame.lifecycle
             (SvgFrame.Mounted wrapper :: map SvgFrame.ContainerResized later) in
  let w := Qfloor (SvgFrame.rect_width wrapper) in
  let h := Qfloor (SvgFrame.rect_height wrapper) in
  SvgFrame.width s = w /\
  SvgFrame.height s = h /\
  (inject_Z w <= SvgFrame.rect_width wrapper < inject_Z (w + 1))%Q /\
  (inject_Z h <= SvgFrame.rect_height wrapper < inject_Z (h + 1))%Q /\
  (SvgFrame.template s = None <-> (w <= 0 \/ h <= 0)%Z) /\
  SvgFrame.template s =
    (if (0 <? w)%Z && (0 <? h)%Z
     then Some (SvgFrame.mkSvg w h
                  ("0 0 " +:+ Z_to_string w +:+ " " +:+ Z_to_string h) w h)
     else None).
Proof.
  intros s w h.
  assert (Hs : s = SvgFrame.mkFrame w h).
  { subst s. unfold SvgFrame.lifecycle. simpl.
    induction later as [|r rs IH]; simpl; [reflexivity | exact IH]. }
  rewrite Hs. unfold SvgFrame.template; simpl.
  repeat split.
  - apply Qfloor_le.
  - apply Qlt_floor.
  - apply Qfloor_le.
  - apply Qlt_floor.
  - destruct (0 <? w)%Z eqn:Ew; destruct (0 <? h)%Z eqn:Eh; simpl;
      try discriminate; intros _;
      apply Z.ltb_ge in Ew || apply Z.ltb_ge in Eh; auto.
  - intros [Hw | Hh].
    + apply Z.ltb_ge in Hw. rewrite Hw. reflexivity.
    + apply Z.ltb_ge in Hh. rewrite Hh, andb_false_r. reflexivity.
Qed.

(** ** Reading the message table *)

Lemma message_insert_eq (P : gmap string value) (k : string) (v : value) :
  message (<[k := v]> P) k = v.
Proof. unfold message. rewrite lookup_insert_eq. reflexivity. Qed.

Lemma message_insert_ne (P : gmap string value) (k k' : string) (v : value) :
  k <> k' -> message (<[k := v]> P) k' = message P k'.
Proof. intros H. unfold message. rewrite lookup_insert_ne by exact H. reflexivity. Qed.

(** ** The queue fill rate *)

Lemma js_gt_num (a b : num) :
  js_gt (VNum a) (VNum b) =
    Ok (match num_lt b a with Some true => true | _ => false end).
Proof.
  cbv beta iota delta [js_gt is_less_than to_primitive to_number bindR].
  destruct (num_lt b a) as [[|]|]; reflexivity.
Qed.

(** C8.  For [minddata_device_queue_rate] whose [empty_rate] and
    [empty_warning_threshold] are numbers (any doubles: integers, fractions,
    infinities, NaN), the content of the emitted line is the [empty_rate]
    text when the rate is strictly above the threshold and the
    [empty_warning_threshold] text otherwise; a NaN on either side is not
    above anything.  The emitted line is written out in full. *)
Theorem queue_rate_variant i18n_format (data v : value) (a b : num)
    (content : string) (s : panel) :
  let item := "minddata_device_queue_rate" in
  let variant :=
    match num_lt b a with
    | Some true => "empty_rate"
    | _ => "empty_warning_threshold"
    end in
  let fragment :=
    "<div class=" +:+ q "content-style" +:+ ">" +:+
    ln 25 +:+ "<div class=" +:+ q "content-icon el-icon-caret-right" +:+
    "></div>" +:+
    ln 25 +:+ "<div class=" +:+ q "helper-content-style" +:+ ">" +:+
    content +:+ "</div>" +:+
    ln 23 +:+ "</div>" in
  get_prop data item = Ok v ->
  get_prop v "empty_rate" = Ok (VNum a) ->
  get_prop v "empty_warning_threshold" = Ok (VNum b) ->
  to_string (t i18n_format ("profiling." +:+ item +:+ "." +:+ variant)
               (submessage (message (profiling s) item) variant) v)
    = Ok content ->
  process_item i18n_format data item s =
    (Ok tt,
     write_helper_tips
       (join EmptyString (innerHTMLs s ++ [fragment]))
       (set_innerHTMLs (innerHTMLs s ++ [fragment]) s)).
Proof.
  intros item variant fragment Hv Ha Hb Hc.
  assert (Hf : fragment = content_item 25 content) by reflexivity.
  rewrite Hf. clear Hf fragment.
  unfold process_item, bindM, lift. rewrite Hv.
  unfold record_message, render_item, bindM, lift, gets, ret, push, modify.
  simpl. unfold tip_content. simpl. rewrite Ha, Hb.
  cbv beta iota delta [bindR]. rewrite js_gt_num.
  subst variant item.
  destruct (num_lt b a) as [[|]|]; simpl.
  - match goal with
    | |- context [to_string ?x] =>
        assert (Hc' : to_string x = Ok content) by exact Hc
    end.
    rewrite Hc'. reflexivity.
  - match goal with
    | |- context [to_string ?x] =>
        assert (Hc' : to_string x = Ok content) by exact Hc
    end.
    rewrite Hc'. reflexivity.
  - match goal with
    | |- context [to_string ?x] =>
        assert (Hc' : to_string x = Ok content) by exact Hc
    end.
    rewrite Hc'. reflexivity.
Qed.

(** The rate 0.35 is above the threshold 0.2. *)
Lemma queue_rate_variant_witness :
  process_item Samples.show_text
    (VObj [("minddata_device_queue_rate",
            VObj [("empty_rate", VNum (number 35 (-2)));
                  ("empty_warning_threshold", VNum (number 2 (-1)))])])
    "minddata_device_queue_rate" (data Samples.messages)
  = (Ok tt,
     write_helper_tips
       (join EmptyString [content_item 25 "queue often empty"])
       (set_innerHTMLs [content_item 25 "queue often empty"]
          (data Samples.messages))).
Proof.
  apply (queue_rate_variant Samples.show_text _
           (VObj [("empty_rate", VNum (number 35 (-2)));
                  ("empty_warning_threshold", VNum (number 2 (-1)))])
           (number 35 (-2)) (number 2 (-1))
           "queue often empty" (data Samples.messages));
    vm_compute; reflexivity.
Defined.

(** ** The queue pair *)

Lemma js_ge_safe (z : Z) :
  safe z = true ->
  js_ge (VNum (Fin z)) (VNum (Fin 0)) = Ok (0 <=? z)%Z.
Proof.
  intros Hs.
  cbv beta iota delta
    [js_ge is_less_than to_primitive to_number bindR num_lt].
  rewrite Hs. change (safe 0) with true.
  cbv beta iota delta [andb].
  destruct (z <? 0)%Z eqn:E1; destruct (0 <=? z)%Z eqn:E2; try reflexivity.
  - apply Z.ltb_lt in E1. apply Z.leb_le in E2. lia.
  - apply Z.ltb_ge in E1. apply Z.leb_gt in E2. lia.
Qed.

Lemma js_ge_zero_of_nonneg (z : Z) :
  safe z = true ->
  (0 <= z)%Z -> js_ge (VNum (Fin z)) (VNum (Fin 0)) = Ok true.
Proof.
  intros Hs H. rewrite (js_ge_safe z Hs).
  destruct (0 <=? z)%Z eqn:E; [reflexivity | apply Z.leb_gt in E; lia].
Qed.

Lemma to_string_int (z : Z) :
  safe z = true -> to_string (VNum (Fin z)) = Ok (Z_to_string z).
Proof.
  intros Hs. cbv beta iota delta [to_string num_to_string].
  rewrite Hs. reflexivity.
Qed.

Lemma js_sub_safe (a b : Z) :
  safe a = true -> safe b = true ->
  js_sub (VNum (Fin a)) (VNum (Fin b)) = Ok (VNum (Fin (a - b))).
Proof.
  intros Ha Hb.
  cbv beta iota delta [js_sub to_primitive to_number bindR num_sub].
  rewrite Ha, Hb. reflexivity.
Qed.


(** For a pair of non-negative numbers the four substitutions are the
    start, the end, their difference and the end again. *)
Lemma queue_content_valid_pair (P : gmap string value) (item desc : string)
    (a b : Z) :
  safe a = true -> safe b = true ->
  (0 <= a)%Z -> (0 <= b)%Z ->
  desc_text (message P item) = Ok desc ->
  queue_content P item (VArr [VNum (Fin a); VNum (Fin b)]) =
    Ok (replace
          (replace
             (replace
                (replace desc "{n1}" (nowrap (Z_to_string a)))
                "{n2}" (nowrap (Z_to_string b)))
             "{n3}" (nowrap (Z_to_string (b - a))))
          "{n4}" (nowrap (Z_to_string b))).
Proof.
  intros Sa Sb Ha Hb Hd. unfold queue_content, destructure_pair.
  cbv beta iota zeta delta [bindR fst snd nth].
  rewrite (js_ge_zero_of_nonneg a Sa Ha), (js_ge_zero_of_nonneg b Sb Hb), Hd.
  assert (Sd : safe (b - a) = true).
  { apply safe_bounds. apply safe_bounds in Sa, Sb. lia. }
  rewrite (js_sub_safe b a Sb Sa).
  rewrite (to_string_int a Sa), (to_string_int b Sb), (to_string_int _ Sd).
  reflexivity.
Qed.

(** C3.  For the pair [-1, 100] the start is shown as the dash, and the
    third substitution is the subtraction carried out on the dash: the text
    NaN.  The whole request on the sample table shows it in the emitted
    line. *)
Theorem queue_delta_of_dash (P : gmap string value) (desc : string) :
  queue_content (<["minddata_device_queue" := Samples.descriptor desc]> P)
    "minddata_device_queue" (VArr [VNum (Fin (-1)); VNum (Fin 100)]) =
    Ok (replace
          (replace
             (replace
                (replace desc "{n1}" (nowrap "--"))
                "{n2}" (nowrap "100"))
             "{n3}" (nowrap "NaN"))
          "{n4}" (nowrap "100")) /\
  innerHTMLs
    (Samples.fetch
       (VObj [("minddata_device_queue",
               VArr [VNum (Fin (-1)); VNum (Fin 100)])])
       (data Samples.messages)) =
    [content_item 25
       ("empty " +:+ nowrap "--" +:+ " of " +:+ nowrap "100" +:+
        ", busy " +:+ nowrap "NaN" +:+ " of " +:+ nowrap "100")].
Proof.
  split.
  - unfold queue_content. rewrite message_insert_eq. reflexivity.
  - vm_compute. reflexivity.
Qed.

(** ** The empty warning list *)

(** C2.  With a descriptor for [device_queue_warning] in the message table,
    a response that carries only [device_queue_warning: []] still emits one
    fragment: the guard on the length skips the warning branch and the field
    ends in the default branch, which prints the same description. *)
Theorem empty_warning_list_emits i18n_format (P : gmap string value)
    (desc : string) :
  innerHTMLs
    (getDataOfProfileHelper i18n_format
       (Samples.axios (VObj [("device_queue_warning", VArr [])]))
       (data (<["device_queue_warning" := Samples.descriptor desc]> P)))
    = [plain_item desc].
Proof.
  unfold getDataOfProfileHelper, Samples.axios, on_response.
  unfold bindM, lift, modify, gets, ret. simpl.
  unfold process_item, record_message, render_item.
  unfold bindM, lift, modify, gets, ret, push. simpl.
  rewrite message_insert_eq. reflexivity.
Qed.

(** ** Anchors *)

Lemma anchor_loop_throws (d anchorList : value) (count i : nat)
    (anchorContent : value) :
  anchor_loop d anchorList (S count) i anchorContent = Throw.
Proof.
  simpl. unfold call_method.
  repeat match goal with
         | |- bindR ?c _ = Throw => destruct c; simpl; try reflexivity
         end.
Qed.

Lemma anchor_branch_throws (d anchor : value) (len : Z) :
  get_prop d "anchor" = Ok anchor ->
  truthy anchor = true ->
  get_prop anchor "length" = Ok (VNum (Fin len)) ->
  (1 < len)%Z ->
  anchor_or_default d = Throw.
Proof.
  intros Ha Ht Hl Hlen. unfold anchor_or_default.
  rewrite Ha. simpl. rewrite Ht, Hl. simpl.
  destruct (len =? 1)%Z eqn:E; [apply Z.eqb_eq in E; lia |].
  destruct (get_prop d "desc") as [content|]; simpl; [|reflexivity].
  destruct (Z.to_nat len) as [|count] eqn:En; [lia |].
  rewrite anchor_loop_throws. reflexivity.
Qed.

(** A descriptor with one anchor: the description inside one hyperlink to
    the first configured URL. *)
Lemma single_anchor_links_description (desc anchor url : string)
    (urls : list string) :
  anchor_or_default (Samples.anchored desc [anchor] (url :: urls)) =
    Ok (linked_item url desc).
Proof. reflexivity. Qed.

(** C1.  A descriptor with two anchors or more never yields a fragment: the
    first turn of the replacement loop calls [relpace], which no text has,
    and the handler stops there.  On the sample table the request ends
    without a fragment and without a write to [#helper-tips]. *)
Theorem multi_anchor_throws (desc a b urls : value) (rest : list value) :
  anchor_or_default
    (VObj [("desc", desc); ("anchor", VArr (a :: b :: rest)); ("url", urls)])
    = Throw /\
  (let s := data Samples.messages in
   let res := VObj [("data", VObj [("op-proposer", VNull)])] in
   handler_completed Samples.show_text res s = false /\
   innerHTMLs (getDataOfProfileHelper Samples.show_text (Resolved res) s) = [] /\
   helper_tips (getDataOfProfileHelper Samples.show_text (Resolved res) s)
     = Some EmptyString).
Proof.
  split.
  - apply (anchor_branch_throws _ (VArr (a :: b :: rest))
             (Z.of_nat (List.length (a :: b :: rest)))).
    + reflexivity.
    + reflexivity.
    + reflexivity.
    + simpl List.length. lia.
  - vm_compute. repeat split.
Qed.

(** ** The advisor proposer *)

Lemma append_assoc (a b c : string) : (a +:+ b) +:+ c = a +:+ (b +:+ c).
Proof.
  induction a as [|x a IH]; [reflexivity|].
  change (String x ((a +:+ b) +:+ c) = String x (a +:+ (b +:+ c))).
  rewrite IH. reflexivity.
Qed.

Lemma append_nil_r (a : string) : a +:+ EmptyString = a.
Proof.
  induction a as [|x a IH]; [reflexivity|].
  change (String x (a +:+ EmptyString) = String x a).
  rewrite IH. reflexivity.
Qed.

Lemma ordinal_text (names : list string) (i : nat) :
  to_string (nth i (map VStr names) VUndef) = Ok (ordinal names i).
Proof.
  unfold ordinal. revert i.
  induction names as [|n names IH]; intros [|i]; simpl; try reflexivity.
  apply IH.
Qed.

Section Advisor.

Variable i18n_format : string -> value -> value -> string.
Variable P : gmap string value.
Variable names : list string.
Hypothesis Hnames : message P "adviceDetails" = VArr (map VStr names).

Lemma detail_entries_paragraphs (vals : list value) (index : nat)
    (detail : string) :
  detail_entries i18n_format P vals index detail =
    Ok (detail +:+ paragraphs names index (List.length vals)).
Proof.
  revert index detail.
  induction vals as [|v vals IH]; intros index detail; simpl.
  - unfold paragraphs. simpl. rewrite append_nil_r. reflexivity.
  - rewrite Hnames. simpl. rewrite ordinal_text. simpl.
    rewrite IH. unfold paragraphs. simpl.
    rewrite !append_assoc. reflexivity.
Qed.

Lemma extend_entry_block (e : value) (contents : list string) :
  entry_ok e = true ->
  extend_entry i18n_format P e contents =
    Ok (if is_recommendation e
        then contents ++ [detail_block names (List.length (sub_items e))]
        else contents).
Proof.
  destruct e as [| | | | | |fs|]; try discriminate.
  unfold entry_ok, extend_entry, is_recommendation, sub_items. simpl.
  destruct (has_key "hasOwnProperty" fs); [discriminate|]. simpl.
  unfold has_key.
  destruct (assoc "extendtitle" fs) as [title|]; simpl; [|reflexivity].
  destruct title as [| | | |title| | |]; simpl; try reflexivity.
  destruct (String.eqb title recommendation); simpl; [|reflexivity].
  destruct (assoc "value" fs) as [[| | | | |[|[| | | | |vals| |] rest]| |]|];
    try discriminate.
  intros _. simpl.
  rewrite detail_entries_paragraphs. simpl.
  unfold detail_block. rewrite append_assoc. reflexivity.
Qed.

Lemma extend_forEach_blocks (entries : list value) (contents : list string) :
  forallb entry_ok entries = true ->
  extend_forEach i18n_format P entries contents =
    Ok (contents ++
        map (fun e => detail_block names (List.length (sub_items e)))
            (List.filter is_recommendation entries)).
Proof.
  revert contents.
  induction entries as [|e entries IH]; intros contents Hok; simpl.
  - rewrite app_nil_r. reflexivity.
  - simpl in Hok. apply andb_prop in Hok as [He Hrest].
    rewrite (extend_entry_block e contents He). simpl.
    rewrite (IH _ Hrest).
    destruct (is_recommendation e); simpl.
    + rewrite <- app_assoc. reflexivity.
    + reflexivity.
Qed.

End Advisor.

(** C4, as the code has it.  [getAdvisorProposer] on the [AICPUModel] entry
    of the advisor payload.  Without an [extend] property it sets
    [adviceNotOptimize] to true, leaves [adviceOptimize] alone and returns no
    content, so the advice container, when it is in the document, holds the
    empty text afterwards.  With an [extend] list it sets [adviceOptimize] to
    true, leaves [adviceNotOptimize] alone and returns one detail block per
    entry titled with the fixed recommendation, each block holding one
    paragraph per element of [value[0]], the first item of that entry's
    [value] list; the container then holds the blocks one after the other,
    and in both cases [innerHTMLs] is what it was. *)
Theorem advisor_proposer_blocks i18n_format :
  (forall (v : value) (fs : list (string * value)) (s : panel),
     get_prop v "AICPUModel" = Ok (VObj fs) ->
     has_key "hasOwnProperty" fs = false ->
     has_key "extend" fs = false ->
     let s' := snd (render_item i18n_format "msadvisor-proposer" v s) in
     fst (getAdvisorProposer i18n_format v "AICPUModel" s) = Ok [] /\
     fst (render_item i18n_format "msadvisor-proposer" v s) = Ok tt /\
     adviceNotOptimize s' = true /\
     adviceOptimize s' = adviceOptimize s /\
     ms_advice_content s' =
       match ms_advice_content s with
       | Some _ => Some EmptyString
       | None => None
       end /\
     innerHTMLs s' = innerHTMLs s) /\
  (forall (v : value) (fs : list (string * value)) (entries : list value)
          (names : list string) (s : panel),
     get_prop v "AICPUModel" = Ok (VObj fs) ->
     has_key "hasOwnProperty" fs = false ->
     assoc "extend" fs = Some (VArr entries) ->
     forallb entry_ok entries = true ->
     message (profiling s) "adviceDetails" = VArr (map VStr names) ->
     let block e :=
       "<span class=" +:+ q "expert-advice" +:+ "><span class=" +:+
       q "advice-detail" +:+ ">" +:+
       paragraphs names 0 (List.length (sub_items e)) +:+
       "</span></span>" in
     let blocks := map block (List.filter is_recommendation entries) in
     let s' := snd (render_item i18n_format "msadvisor-proposer" v s) in
     fst (getAdvisorProposer i18n_format v "AICPUModel" s) = Ok blocks /\
     fst (render_item i18n_format "msadvisor-proposer" v s) = Ok tt /\
     adviceOptimize s' = true /\
     adviceNotOptimize s' = adviceNotOptimize s /\
     ms_advice_content s' =
       match ms_advice_content s with
       | Some _ => Some (join EmptyString blocks)
       | None => None
       end /\
     innerHTMLs s' = innerHTMLs s).
Proof.
  split.
  - intros v fs s Hv Hshadow Hext s'.
    assert (Hget : getAdvisorProposer i18n_format v "AICPUModel" s =
                     (Ok [], set_adviceNotOptimize true s)).
    { unfold getAdvisorProposer, bindM, lift, modify, ret.
      rewrite Hv. simpl. rewrite Hshadow, Hext. reflexivity. }
    assert (Hrender : render_item i18n_format "msadvisor-proposer" v s =
              (Ok tt,
               write_ms_advice EmptyString (set_adviceNotOptimize true s))).
    { unfold render_item, bindM, gets, lift. simpl.
      unfold bindM. rewrite Hget. reflexivity. }
    subst s'. rewrite Hget, Hrender. unfold write_ms_advice. simpl.
    destruct (ms_advice_content s) eqn:E; simpl; rewrite ?E;
      repeat split; reflexivity.
  - intros v fs entries names s Hv Hshadow Hext Hok Hnames block blocks s'.
    assert (Hblocks : blocks =
              map (fun e => detail_block names (List.length (sub_items e)))
                  (List.filter is_recommendation entries)).
    { subst blocks block. apply map_ext. intros e.
      unfold detail_block, detail_open, detail_close.
      rewrite !append_assoc. reflexivity. }
    assert (Hget : getAdvisorProposer i18n_format v "AICPUModel" s =
                     (Ok blocks, set_adviceOptimize true s)).
    { unfold getAdvisorProposer, bindM, lift, modify, ret, gets.
      rewrite Hv. simpl. rewrite Hshadow. unfold has_key. rewrite Hext. simpl.
      rewrite (extend_forEach_blocks i18n_format (profiling s) names Hnames
                 entries [] Hok).
      rewrite Hblocks. reflexivity. }
    assert (Hrender : render_item i18n_format "msadvisor-proposer" v s =
              (Ok tt,
               write_ms_advice (join EmptyString blocks)
                 (set_adviceOptimize true s))).
    { unfold render_item, bindM, gets, lift. simpl.
      unfold bindM. rewrite Hget. reflexivity. }
    subst s'. rewrite Hget, Hrender. unfold write_ms_advice. simpl.
    destruct (ms_advice_content s) eqn:E; simpl; rewrite ?E;
      repeat split; reflexivity.
Qed.

Lemma advisor_proposer_blocks_witness :
  adviceNotOptimize
    (snd (render_item Samples.show_text "msadvisor-proposer"
            (VObj [("AICPUModel", VObj [("title", VStr "AICPU")])])
            (mkPanel Samples.messages "none" false false [] None
               (Some "earlier advice") []))) = true /\
  ms_advice_content
    (snd (render_item Samples.show_text "msadvisor-proposer"
            (VObj [("AICPUModel", VObj [("title", VStr "AICPU")])])
            (mkPanel Samples.messages "none" false false [] None
               (Some "earlier advice") []))) = Some EmptyString /\
  adviceOptimize
    (snd (render_item Samples.show_text "msadvisor-proposer"
            (Samples.proposer
               [Samples.advice "Other advice" [VNull];
                Samples.advice recommendation [VStr "Cast"; VStr "Mul"]])
            (data Samples.messages))) = true /\
  ms_advice_content
    (snd (render_item Samples.show_text "msadvisor-proposer"
            (Samples.proposer
               [Samples.advice "Other advice" [VNull];
                Samples.advice recommendation [VStr "Cast"; VStr "Mul"]])
            (data Samples.messages))) =
    Some ("<span class=" +:+ q "expert-advice" +:+ "><span class=" +:+
          q "advice-detail" +:+ "><p>first</p><p>second</p></span></span>").
Proof.
  destruct (proj1 (advisor_proposer_blocks Samples.show_text)
              (VObj [("AICPUModel", VObj [("title", VStr "AICPU")])])
              [("title", VStr "AICPU")]
              (mkPanel Samples.messages "none" false false [] None
                 (Some "earlier advice") [])
              eq_refl eq_refl eq_refl)
    as (_ & _ & Hflag & _ & Hcontent & _).
  destruct (proj2 (advisor_proposer_blocks Samples.show_text)
              (Samples.proposer
                 [Samples.advice "Other advice" [VNull];
                  Samples.advice recommendation [VStr "Cast"; VStr "Mul"]])
              [("extend",
                VArr [Samples.advice "Other advice" [VNull];
                      Samples.advice recommendation [VStr "Cast"; VStr "Mul"]])]
              [Samples.advice "Other advice" [VNull];
               Samples.advice recommendation [VStr "Cast"; VStr "Mul"]]
              ["first"; "second"; "third"]
              (data Samples.messages)
              eq_refl eq_refl eq_refl eq_refl eq_refl)
    as (_ & _ & Hflag' & _ & Hcontent' & _).
  exact (conj Hflag (conj Hcontent (conj Hflag' Hcontent'))).
Defined.

(** C4, as stated, fails on the count.  The [value] list of this
    recommendation has two items; its detail block has three paragraphs, one
    per element of [value[0]]. *)
Lemma block_counts_first_value_item :
  get_prop Samples.two_value_items "value" =
    Ok (VArr [VArr [VStr "Cast"; VStr "Mul"; VStr "Add"];
              VArr [VStr "Sub"]]) /\
  getAdvisorProposer Samples.show_text
    (Samples.proposer [Samples.two_value_items]) "AICPUModel"
    (data Samples.messages) =
    (Ok ["<span class=" +:+ q "expert-advice" +:+ "><span class=" +:+
         q "advice-detail" +:+
         "><p>first</p><p>second</p><p>third</p></span></span>"],
     set_adviceOptimize true (data Samples.messages)).
Proof. split; reflexivity. Qed.

(** ** Writes to the tips container *)

Lemma same_helper_refl (s : panel) : same_helper s s.
Proof. split; reflexivity. Qed.

Lemma same_helper_trans (s1 s2 s3 : panel) :
  same_helper s1 s2 -> same_helper s2 s3 -> same_helper s1 s3.
Proof. intros [H1 H2] [H3 H4]. split; congruence. Qed.

Lemma same_helper_ms_advice (html : string) (s : panel) :
  same_helper s (write_ms_advice html s).
Proof.
  unfold same_helper, write_ms_advice, helper_writes.
  destruct (ms_advice_content s); simpl; [|auto].
  rewrite List.filter_app. simpl. rewrite app_nil_r. auto.
Qed.

Lemma process_item_split i18n_format (data : value) (item : string)
    (s : panel) :
  process_item i18n_format data item s =
    match before_write i18n_format data item s with
    | (Ok _, s0) =>
        (Ok tt, write_helper_tips (join EmptyString (innerHTMLs s0)) s0)
    | (Throw, s0) => (Throw, s0)
    end.
Proof.
  unfold process_item, before_write, bindM, lift, modify.
  destruct (get_prop data item) as [v|]; [|reflexivity].
  destruct (record_message item v s) as [[u|] s1]; [|reflexivity].
  destruct (render_item i18n_format item v s1) as [[u'|] s2]; reflexivity.
Qed.

Lemma before_write_same_helper i18n_format (data : value) (item : string) :
  stable same_helper (before_write i18n_format data item).
Proof.
  unfold before_write.
  apply stable_bind; try exact same_helper_trans.
  { apply stable_lift; exact same_helper_refl. }
  intros v. apply stable_bind; try exact same_helper_trans.
  { apply stable_record_message; auto using same_helper_refl.
    intros P0 s0. split; reflexivity. }
  intros _.
  apply stable_render_item;
    try exact same_helper_refl; try exact same_helper_trans;
    try exact same_helper_ms_advice;
    intros; split; reflexivity.
Qed.

(** One field, processed to its end, makes exactly one write to
    [#helper-tips]: the join of the fragments emitted so far. *)
Lemma process_item_writes_once i18n_format (data : value) (item : string)
    (s : panel) (old : string) :
  helper_tips s = Some old ->
  fst (process_item i18n_format data item s) = Ok tt ->
  let s1 := snd (process_item i18n_format data item s) in
  helper_tips s1 = Some (join EmptyString (innerHTMLs s1)) /\
  helper_writes s1 = helper_writes s ++ [join EmptyString (innerHTMLs s1)].
Proof.
  intros Hold Hok. rewrite process_item_split in *.
  pose proof (before_write_same_helper i18n_format data item s) as [Ht Hw].
  destruct (before_write i18n_format data item s) as [[u|] s0];
    simpl in *; [|discriminate].
  unfold write_helper_tips. rewrite Ht, Hold. simpl. split; [reflexivity|].
  unfold helper_writes in *. simpl.
  rewrite List.filter_app, map_app. simpl. rewrite Hw. reflexivity.
Qed.

Lemma forEach_keys_cons_ok i18n_format (data : value) (item : string)
    (rest : list string) (s : panel) :
  fst (process_item i18n_format data item s) = Ok tt ->
  forEach_keys i18n_format data (item :: rest) s =
    forEach_keys i18n_format data rest
      (snd (process_item i18n_format data item s)).
Proof.
  intros H. simpl. unfold bindM.
  destruct (process_item i18n_format data item s) as [[[]|] s1];
    [reflexivity | discriminate].
Qed.

Lemma forEach_keys_cons_inv i18n_format (data : value) (item : string)
    (rest : list string) (s : panel) :
  fst (forEach_keys i18n_format data (item :: rest) s) = Ok tt ->
  fst (process_item i18n_format data item s) = Ok tt.
Proof.
  simpl. unfold bindM.
  destruct (process_item i18n_format data item s) as [[[]|] s1];
    [reflexivity | discriminate].
Qed.

Lemma forEach_keys_app i18n_format (data : value) (done rest : list string)
    (s : panel) :
  fst (forEach_keys i18n_format data done s) = Ok tt ->
  forEach_keys i18n_format data (done ++ rest) s =
    forEach_keys i18n_format data rest
      (snd (forEach_keys i18n_format data done s)).
Proof.
  revert s. induction done as [|item done IH]; intros s Hok.
  - reflexivity.
  - pose proof (forEach_keys_cons_inv _ _ _ _ _ Hok) as Hitem.
    rewrite <- app_comm_cons.
    rewrite !(forEach_keys_cons_ok _ _ _ _ _ Hitem) in *.
    apply IH. exact Hok.
Qed.

(** C5, as the code has it.  The loop writes [#helper-tips] once per field,
    at the end of that field's turn, with the join of the fragments emitted
    up to then.  A handler that completes on [n] fields has made [n] writes,
    the [k]-th holding the fragments of the first [k] fields, and the
    container ends with the join of the whole list (or untouched when there
    is no field). *)
Theorem helper_tips_written_after_each_field i18n_format (data : value)
    (keys : list string) (s : panel) (old : string) :
  helper_tips s = Some old ->
  fst (forEach_keys i18n_format data keys s) = Ok tt ->
  helper_writes (snd (forEach_keys i18n_format data keys s)) =
    helper_writes s ++
    map (fun k =>
           join EmptyString
             (innerHTMLs
                (snd (forEach_keys i18n_format data (firstn k keys) s))))
        (seq 1 (List.length keys)) /\
  helper_tips (snd (forEach_keys i18n_format data keys s)) =
    Some (match keys with
          | [] => old
          | _ :: _ =>
              join EmptyString
                (innerHTMLs (snd (forEach_keys i18n_format data keys s)))
          end).
Proof.
  revert s old. induction keys as [|item rest IH]; intros s old Hold Hok.
  - simpl. rewrite app_nil_r. auto.
  - pose proof (forEach_keys_cons_inv _ _ _ _ _ Hok) as Hitem.
    destruct (process_item_writes_once _ _ _ _ _ Hold Hitem) as [Ht Hw].
    rewrite (forEach_keys_cons_ok _ _ _ _ _ Hitem) in *.
    destruct (IH _ _ Ht Hok) as [IHw IHt].
    split.
    + rewrite IHw, Hw, <- app_assoc. f_equal.
      change (seq 1 (List.length (item :: rest)))
        with (1 :: seq 2 (List.length rest)).
      rewrite <- (seq_shift (List.length rest) 1), map_cons, map_map.
      simpl app. f_equal.
      * change (firstn 1 (item :: rest)) with [item].
        rewrite (forEach_keys_cons_ok _ _ _ _ _ Hitem). reflexivity.
      * apply map_ext. intros k.
        change (firstn (S k) (item :: rest)) with (item :: firstn k rest).
        rewrite (forEach_keys_cons_ok _ _ _ _ _ Hitem). reflexivity.
    + rewrite IHt. destruct rest; reflexivity.
Qed.

Lemma helper_tips_written_after_each_field_witness :
  helper_writes
    (snd (forEach_keys Samples.show_text Samples.two_fields
            ["common-proposer_type_label"; "common-profiler_tutorial"]
            (data Samples.messages))) =
    helper_writes (data Samples.messages) ++
    map (fun k =>
           join EmptyString
             (innerHTMLs
                (snd (forEach_keys Samples.show_text Samples.two_fields
                        (firstn k ["common-proposer_type_label";
                                   "common-profiler_tutorial"])
                        (data Samples.messages)))))
        (seq 1 2) /\
  helper_tips
    (snd (forEach_keys Samples.show_text Samples.two_fields
            ["common-proposer_type_label"; "common-profiler_tutorial"]
            (data Samples.messages))) =
    Some (join EmptyString
            (innerHTMLs
               (snd (forEach_keys Samples.show_text Samples.two_fields
                       ["common-proposer_type_label";
                        "common-profiler_tutorial"]
                       (data Samples.messages))))).
Proof.
  apply (helper_tips_written_after_each_field Samples.show_text
           Samples.two_fields
           ["common-proposer_type_label"; "common-profiler_tutorial"]
           (data Samples.messages) EmptyString); reflexivity.
Defined.

(** C5, as stated, fails: a response with two fields makes two writes, and
    the first one, made before the second field is looked at, holds the
    first fragment alone. *)
Lemma helper_tips_written_before_last_field :
  helper_writes (Samples.fetch Samples.two_fields (data Samples.messages)) =
    [ suggested_item "Common";
      suggested_item "Common" +:+ linked_item "https://a" "read the tutorial" ].
Proof. vm_compute. reflexivity. Qed.

(** ** Failures *)

Lemma same_dom_refl (s : panel) : same_dom s s.
Proof. reflexivity. Qed.

Lemma same_dom_trans (s1 s2 s3 : panel) :
  same_dom s1 s2 -> same_dom s2 s3 -> same_dom s1 s3.
Proof. unfold same_dom. congruence. Qed.

Lemma quiet_stable {A} (c : M A) : stable same_dom c -> quiet c.
Proof. intros H s _. apply H. Qed.

Lemma quiet_modify (f : panel -> panel) : quiet (modify f).
Proof. intros s H. discriminate H. Qed.

Lemma quiet_ret {A} (a : A) : quiet (ret a).
Proof. intros s H. discriminate H. Qed.

Lemma quiet_if {A} (b : bool) (c1 c2 : M A) :
  quiet c1 -> quiet c2 -> quiet (if b then c1 else c2).
Proof. destruct b; auto. Qed.

Lemma quiet_bind {A B} (c : M A) (k : A -> M B) :
  stable same_dom c -> (forall a, quiet (k a)) -> quiet (bindM c k).
Proof.
  intros Hc Hk s. unfold bindM.
  specialize (Hc s). destruct (c s) as [[a|] s1]; simpl in *.
  - intros H. rewrite (Hk a s1 H). exact Hc.
  - intros _. exact Hc.
Qed.

Lemma same_dom_push (html : string) : stable same_dom (push html).
Proof.
  apply stable_push; try exact same_dom_refl. intros l s. reflexivity.
Qed.

Lemma same_dom_record_message (item : string) (v : value) :
  stable same_dom (record_message item v).
Proof.
  apply stable_record_message; try exact same_dom_refl.
  intros P s. reflexivity.
Qed.

Lemma same_dom_getAdvisorProposer i18n_format (v : value) (item : string) :
  stable same_dom (getAdvisorProposer i18n_format v item).
Proof.
  apply stable_getAdvisorProposer;
    try exact same_dom_refl; try exact same_dom_trans;
    intros b s; reflexivity.
Qed.

Ltac quiet_step :=
  lazymatch goal with
  | |- quiet (bindM (lift _) _) =>
      apply quiet_bind; [ apply stable_lift; exact same_dom_refl | intro ]
  | |- quiet (bindM (gets _) _) =>
      apply quiet_bind; [ apply stable_gets; exact same_dom_refl | intro ]
  | |- quiet (bindM (record_message _ _) _) =>
      apply quiet_bind; [ apply same_dom_record_message | intro ]
  | |- quiet (bindM (getAdvisorProposer _ _ _) _) =>
      apply quiet_bind; [ apply same_dom_getAdvisorProposer | intro ]
  | |- quiet (if _ then _ else _) => apply quiet_if
  | |- quiet (modify _) => apply quiet_modify
  | |- quiet (ret _) => apply quiet_ret
  | |- quiet (push _) => apply quiet_stable; apply same_dom_push
  end.

Lemma quiet_before_write i18n_format (data : value) (item : string) :
  quiet (before_write i18n_format data item).
Proof. unfold before_write, render_item. repeat quiet_step. Qed.

(** A field whose turn throws has written to neither insertion point. *)
Lemma process_item_quiet i18n_format (data : value) (item : string) :
  quiet (process_item i18n_format data item).
Proof.
  intros s. rewrite process_item_split.
  pose proof (quiet_before_write i18n_format data item s) as H.
  destruct (before_write i18n_format data item s) as [[u|] s0]; simpl in *.
  - discriminate.
  - exact H.
Qed.

(** C6, as the code has it.  A rejected request changes nothing.  When the
    turn of a field throws, the loop stops there: the failing field and the
    fields after it write nothing, and both insertion points stay as the
    fields before it left them (as they were before the request when the
    failing field is the first). *)
Theorem failure_keeps_earlier_fields i18n_format :
  (forall s : panel, getDataOfProfileHelper i18n_format Rejected s = s) /\
  (forall (data : value) (done : list string) (item : string)
          (rest : list string) (s : panel),
     fst (forEach_keys i18n_format data done s) = Ok tt ->
     fst (process_item i18n_format data item
            (snd (forEach_keys i18n_format data done s))) = Throw ->
     fst (forEach_keys i18n_format data (done ++ item :: rest) s) = Throw /\
     dom (snd (forEach_keys i18n_format data (done ++ item :: rest) s)) =
       dom (snd (forEach_keys i18n_format data done s))).
Proof.
  split; [reflexivity|].
  intros data done item rest s Hdone Hitem.
  rewrite (forEach_keys_app _ _ _ _ _ Hdone).
  pose proof (process_item_quiet i18n_format data item _ Hitem) as Hq.
  simpl. unfold bindM.
  destruct (process_item i18n_format data item
              (snd (forEach_keys i18n_format data done s))) as [[u|] s1];
    simpl in *; [discriminate|].
  split; [reflexivity | exact Hq].
Qed.

Lemma failure_keeps_earlier_fields_witness :
  fst (forEach_keys Samples.show_text Samples.unknown_second
         (["common-proposer_type_label"] ++ "brand_new_tip" :: [])
         (data Samples.messages)) = Throw /\
  dom (snd (forEach_keys Samples.show_text Samples.unknown_second
              (["common-proposer_type_label"] ++ "brand_new_tip" :: [])
              (data Samples.messages))) =
    dom (snd (forEach_keys Samples.show_text Samples.unknown_second
                ["common-proposer_type_label"] (data Samples.messages))).
Proof.
  apply (proj2 (failure_keeps_earlier_fields Samples.show_text));
    reflexivity.
Defined.

(** C6, as stated, fails: the second field of this response throws, the
    handler does not complete, and [#helper-tips], empty before the request,
    holds the fragment of the first field after it. *)
Lemma failure_leaves_partial_tips :
  handler_completed Samples.show_text
    (VObj [("data", Samples.unknown_second)]) (data Samples.messages) = false /\
  helper_tips (data Samples.messages) = Some EmptyString /\
  helper_tips (Samples.fetch Samples.unknown_second (data Samples.messages)) =
    Some (suggested_item "Common").
Proof. vm_compute. repeat split. Qed.

(** ** Two requests in a row *)

Section Extensional.

Variable i18n_format : string -> value -> value -> string.
Variables P P' : gmap string value.

Lemma detail_entries_ext (vals : list value) (index : nat) (detail : string) :
  message P' "adviceDetails" = message P "adviceDetails" ->
  detail_entries i18n_format P' vals index detail =
    detail_entries i18n_format P vals index detail.
Proof.
  intros H. revert index detail.
  induction vals as [|v vals IH]; intros index detail; simpl.
  - reflexivity.
  - rewrite H.
    destruct (get_index _ index) as [x|]; simpl; [|reflexivity].
    destruct (to_string x) as [text|]; simpl; [|reflexivity].
    apply IH.
Qed.

Lemma extend_forEach_ext (entries : list value) (contents : list string) :
  message P' "adviceDetails" = message P "adviceDetails" ->
  extend_forEach i18n_format P' entries contents =
    extend_forEach i18n_format P entries contents.
Proof.
  intros H. revert contents.
  induction entries as [|e entries IH]; intros contents; simpl.
  - reflexivity.
  - assert (He : extend_entry i18n_format P' e contents =
                 extend_entry i18n_format P e contents).
    { unfold extend_entry.
      destruct (hasOwnProperty e "extendtitle") as [[|]|]; simpl;
        try reflexivity.
      destruct (get_prop e "extendtitle") as [title|]; simpl;
        [|reflexivity].
      destruct (strict_eq_string title recommendation); [|reflexivity].
      destruct (get_prop e "value") as [value|]; simpl; [|reflexivity].
      destruct (get_index value 0) as [value0|]; simpl; [|reflexivity].
      destruct (forEach_elems value0) as [vals|]; simpl; [|reflexivity].
      rewrite (detail_entries_ext vals 0 detail_open H). reflexivity. }
    rewrite He.
    destruct (extend_entry i18n_format P e contents) as [contents'|]; simpl;
      [apply IH | reflexivity].
Qed.

Lemma tip_content_ext (item : string) (v : value) :
  message P' item = message P item ->
  tip_content i18n_format P' item v = tip_content i18n_format P item v.
Proof. intros H. unfold tip_content. rewrite H. reflexivity. Qed.

Lemma queue_content_ext (item : string) (v : value) :
  message P' item = message P item ->
  queue_content P' item v = queue_content P item v.
Proof. intros H. unfold queue_content. rewrite H. reflexivity. Qed.

End Extensional.

Lemma innerHTMLs_write_ms_advice (html : string) (s : panel) :
  innerHTMLs (write_ms_advice html s) = innerHTMLs s.
Proof. unfold write_ms_advice. destruct (ms_advice_content s); reflexivity. Qed.

Lemma profiling_write_ms_advice (html : string) (s : panel) :
  profiling (write_ms_advice html s) = profiling s.
Proof. unfold write_ms_advice. destruct (ms_advice_content s); reflexivity. Qed.

Lemma innerHTMLs_write_helper_tips (html : string) (s : panel) :
  innerHTMLs (write_helper_tips html s) = innerHTMLs s.
Proof. unfold write_helper_tips. destruct (helper_tips s); reflexivity. Qed.

Lemma profiling_write_helper_tips (html : string) (s : panel) :
  profiling (write_helper_tips html s) = profiling s.
Proof. unfold write_helper_tips. destruct (helper_tips s); reflexivity. Qed.

Lemma getAdvisorProposer_ext i18n_format (v : value) (item : string)
    (s s' : panel) :
  message (profiling s') "adviceDetails"
    = message (profiling s) "adviceDetails" ->
  innerHTMLs s' = innerHTMLs s ->
  fst (getAdvisorProposer i18n_format v item s')
    = fst (getAdvisorProposer i18n_format v item s) /\
  innerHTMLs (snd (getAdvisorProposer i18n_format v item s'))
    = innerHTMLs (snd (getAdvisorProposer i18n_format v item s)).
Proof.
  intros Hadv Hin.
  unfold getAdvisorProposer, bindM, gets, lift, modify, ret.
  destruct (get_prop v item) as [model|]; simpl; [|auto].
  destruct (hasOwnProperty model "extend") as [[|]|]; simpl; auto.
  destruct (get_prop model "extend") as [extend|]; simpl; [|auto].
  destruct (forEach_elems extend) as [entries|]; simpl; [|auto].
  rewrite (extend_forEach_ext i18n_format _ _ entries [] Hadv). auto.
Qed.

(** [render_item] reads the table at two places only: the descriptor of the
    field and the ordinal list. *)
Lemma render_item_ext i18n_format (item : string) (v : value) (s s' : panel) :
  message (profiling s') item = message (profiling s) item ->
  message (profiling s') "adviceDetails"
    = message (profiling s) "adviceDetails" ->
  innerHTMLs s' = innerHTMLs s ->
  fst (render_item i18n_format item v s')
    = fst (render_item i18n_format item v s) /\
  innerHTMLs (snd (render_item i18n_format item v s'))
    = innerHTMLs (snd (render_item i18n_format item v s)).
Proof.
  intros Hitem Hadv Hin.
  pose proof (getAdvisorProposer_ext i18n_format v "AICPUModel" s s' Hadv Hin)
    as [Hg1 Hg2].
  unfold render_item, bindM, gets, lift, push, modify. simpl.
  rewrite Hitem.
  rewrite (tip_content_ext i18n_format _ _ item v Hitem).
  rewrite (queue_content_ext _ _ item v Hitem).
  repeat match goal with
         | |- context [if ?b then _ else _] => destruct b; simpl
         | |- context [match ?x with Ok _ => _ | Throw => _ end] =>
             destruct x; simpl
         | |- context [getAdvisorProposer i18n_format v "AICPUModel" s] =>
             destruct (getAdvisorProposer i18n_format v "AICPUModel" s)
               as [r1 t1];
             destruct (getAdvisorProposer i18n_format v "AICPUModel" s')
               as [r2 t2];
             simpl in Hg1, Hg2; subst r2; simpl
         end;
    rewrite ?innerHTMLs_write_ms_advice; simpl; rewrite ?Hin; auto.
Qed.

Lemma render_item_profiling i18n_format (item : string) (v : value) :
  stable same_profiling (render_item i18n_format item v).
Proof.
  apply stable_render_item; unfold same_profiling; try reflexivity.
  - intros s1 s2 s3 H12 H23. congruence.
  - intros html s. apply profiling_write_ms_advice.
Qed.

Lemma overwritten_refl (data : value) (P : gmap string value) :
  overwritten data P P.
Proof. intros k. left. reflexivity. Qed.

Lemma overwritten_trans (data : value) (P1 P2 P3 : gmap string value) :
  overwritten data P1 P2 -> overwritten data P2 P3 -> overwritten data P1 P3.
Proof.
  intros H12 H23 k.
  destruct (H23 k) as [E23 | R23]; [|right; exact R23].
  destruct (H12 k) as [E12 | (Ht & Hm & v & Hv & Htr & E12)].
  - left. congruence.
  - right. repeat split; auto. exists v. repeat split; auto. congruence.
Qed.

Lemma keeps_refl (data : value) (s : panel) : keeps data s s.
Proof. split; [apply overwritten_refl | reflexivity]. Qed.

Lemma keeps_trans (data : value) (s1 s2 s3 : panel) :
  keeps data s1 s2 -> keeps data s2 s3 -> keeps data s1 s3.
Proof.
  intros [H1 H2] [H3 H4]. split.
  - eapply overwritten_trans; eassumption.
  - congruence.
Qed.

Lemma keeps_same_profiling (data : value) (s s' : panel) :
  same_profiling s s' -> keeps data s s'.
Proof.
  unfold same_profiling. intros H. split; rewrite H;
    [apply overwritten_refl | reflexivity].
Qed.

Lemma recorded_conditions (item : string) (v : value) :
  negb (includes tipsArrayList item) && negb (includes moreParameter item)
    && truthy v = true ->
  includes tipsArrayList item = false /\
  includes moreParameter item = false /\
  truthy v = true.
Proof.
  intros H. apply andb_prop in H as [H Hv]. apply andb_prop in H as [Ht Hm].
  apply negb_true_iff in Ht, Hm. auto.
Qed.

(** Step 1 of the dispatch, seen from one handler. *)
Lemma record_message_keeps (data : value) (item : string) (v : value)
    (s : panel) :
  get_prop data item = Ok v ->
  item <> "adviceDetails" ->
  keeps data s (snd (record_message item v s)).
Proof.
  intros Hv Hne. unfold record_message.
  destruct (negb (includes tipsArrayList item)
            && negb (includes moreParameter item) && truthy v) eqn:Hc;
    [|apply keeps_refl].
  apply recorded_conditions in Hc as (Ht & Hm & Htr).
  split; simpl.
  - intros k. destruct (decide (item = k)) as [<-|Hk].
    + right. repeat split; auto. exists v. rewrite lookup_insert_eq. auto.
    + left. apply lookup_insert_ne. exact Hk.
  - apply message_insert_ne. exact Hne.
Qed.

(** Step 1 of the dispatch, seen from two handlers whose states agree: after
    it both tables hold the same descriptor for the field. *)
Lemma record_message_agree (data : value) (item : string) (v : value)
    (s s' : panel) :
  get_prop data item = Ok v ->
  item <> "adviceDetails" ->
  agree data s s' ->
  fst (record_message item v s') = fst (record_message item v s) /\
  agree data (snd (record_message item v s)) (snd (record_message item v s')) /\
  message (profiling (snd (record_message item v s'))) item =
    message (profiling (snd (record_message item v s))) item.
Proof.
  intros Hv Hne (Hin & Hover & Hadv). unfold record_message.
  destruct (negb (includes tipsArrayList item)
            && negb (includes moreParameter item) && truthy v) eqn:Hc; simpl.
  - split; [reflexivity|]. split.
    + split; [exact Hin|]. split; simpl.
      * intros k. destruct (decide (item = k)) as [<-|Hk].
        -- left. rewrite !lookup_insert_eq. reflexivity.
        -- rewrite !lookup_insert_ne by exact Hk. apply Hover.
      * rewrite !message_insert_ne by exact Hne. exact Hadv.
    + rewrite !message_insert_eq. reflexivity.
  - split; [reflexivity|]. split.
    + split; [exact Hin|]. split; assumption.
    + unfold message.
      destruct (Hover item) as [E | (Ht & Hm & v' & Hv' & Htr & E)].
      * rewrite E. reflexivity.
      * exfalso. rewrite Hv in Hv'. injection Hv' as <-.
        rewrite Ht, Hm, Htr in Hc. discriminate Hc.
Qed.

Lemma before_write_keeps i18n_format (data : value) (item : string)
    (s : panel) :
  item <> "adviceDetails" ->
  keeps data s (snd (before_write i18n_format data item s)).
Proof.
  intros Hne. unfold before_write, bindM, lift.
  destruct (get_prop data item) as [v|] eqn:Hv; [|apply keeps_refl].
  pose proof (record_message_keeps data item v s Hv Hne) as Hrec.
  destruct (record_message item v s) as [[u|] s1]; simpl in *; [|exact Hrec].
  eapply keeps_trans; [exact Hrec|].
  apply keeps_same_profiling. apply render_item_profiling.
Qed.

Lemma before_write_agree i18n_format (data : value) (item : string)
    (s s' : panel) :
  item <> "adviceDetails" ->
  agree data s s' ->
  fst (before_write i18n_format data item s')
    = fst (before_write i18n_format data item s) /\
  agree data (snd (before_write i18n_format data item s))
             (snd (before_write i18n_format data item s')).
Proof.
  intros Hne Hag. unfold before_write, bindM, lift.
  destruct (get_prop data item) as [v|] eqn:Hv; [|auto].
  destruct (record_message_agree data item v s s' Hv Hne Hag)
    as (Hfst & (Hin & Hover & Hadv) & Hitem).
  destruct (record_message item v s) as [r1 s1].
  destruct (record_message item v s') as [r1' s1'].
  simpl in *. subst r1'.
  destruct r1 as [u|]; [|split; [reflexivity | repeat split; assumption]].
  destruct (render_item_ext i18n_format item v s1 s1' Hitem Hadv Hin)
    as [Hr Hi].
  split; [exact Hr|].
  pose proof (render_item_profiling i18n_format item v s1) as Hp.
  pose proof (render_item_profiling i18n_format item v s1') as Hp'.
  unfold same_profiling in Hp, Hp'.
  split; [exact Hi|]. unfold keeps. rewrite Hp, Hp'. split; assumption.
Qed.

Lemma process_item_keeps i18n_format (data : value) (item : string)
    (s : panel) :
  item <> "adviceDetails" ->
  keeps data s (snd (process_item i18n_format data item s)).
Proof.
  intros Hne. rewrite process_item_split.
  pose proof (before_write_keeps i18n_format data item s Hne) as H.
  destruct (before_write i18n_format data item s) as [[u|] s0];
    simpl in *; [|exact H].
  eapply keeps_trans; [exact H|].
  apply keeps_same_profiling. apply profiling_write_helper_tips.
Qed.

Lemma process_item_agree i18n_format (data : value) (item : string)
    (s s' : panel) :
  item <> "adviceDetails" ->
  agree data s s' ->
  fst (process_item i18n_format data item s')
    = fst (process_item i18n_format data item s) /\
  agree data (snd (process_item i18n_format data item s))
             (snd (process_item i18n_format data item s')).
Proof.
  intros Hne Hag. rewrite !process_item_split.
  destruct (before_write_agree i18n_format data item s s' Hne Hag)
    as (Hfst & Hin & Hover & Hadv).
  destruct (before_write i18n_format data item s) as [r0 s0].
  destruct (before_write i18n_format data item s') as [r0' s0'].
  simpl in *. subst r0'.
  destruct r0 as [u|]; simpl; [|repeat split; assumption].
  split; [reflexivity|]. unfold agree, keeps.
  rewrite !innerHTMLs_write_helper_tips, !profiling_write_helper_tips.
  repeat split; assumption.
Qed.

Lemma forEach_keys_keeps i18n_format (data : value) (keys : list string)
    (s : panel) :
  Forall (fun k => k <> "adviceDetails") keys ->
  keeps data s (snd (forEach_keys i18n_format data keys s)).
Proof.
  intros Hkeys. revert s.
  induction Hkeys as [|item rest Hne Hrest IH]; intros s.
  - apply keeps_refl.
  - simpl. unfold bindM.
    pose proof (process_item_keeps i18n_format data item s Hne) as H.
    destruct (process_item i18n_format data item s) as [[u|] s1];
      simpl in *; [|exact H].
    eapply keeps_trans; [exact H | apply IH].
Qed.

Lemma forEach_keys_agree i18n_format (data : value) (keys : list string)
    (s s' : panel) :
  Forall (fun k => k <> "adviceDetails") keys ->
  agree data s s' ->
  fst (forEach_keys i18n_format data keys s')
    = fst (forEach_keys i18n_format data keys s) /\
  innerHTMLs (snd (forEach_keys i18n_format data keys s'))
    = innerHTMLs (snd (forEach_keys i18n_format data keys s)).
Proof.
  intros Hkeys. revert s s'.
  induction Hkeys as [|item rest Hne Hrest IH]; intros s s' Hag.
  - simpl. split; [reflexivity | apply Hag].
  - simpl. unfold bindM.
    destruct (process_item_agree i18n_format data item s s' Hne Hag)
      as [Hfst Hag1].
    destruct (process_item i18n_format data item s) as [r1 s1].
    destruct (process_item i18n_format data item s') as [r1' s1'].
    simpl in *. subst r1'.
    destruct r1 as [u|]; [apply IH; exact Hag1|].
    simpl. split; [reflexivity | apply Hag1].
Qed.

Lemma includes_false_Forall (keys : list string) (x : string) :
  includes keys x = false -> Forall (fun k => k <> x) keys.
Proof.
  unfold includes. induction keys as [|k keys IH]; simpl; intros H.
  - constructor.
  - apply orb_false_iff in H as [Hk Hrest]. constructor.
    + intros ->. rewrite String.eqb_refl in Hk. discriminate.
    + apply IH. exact Hrest.
Qed.

(** C7, as the code has it.  When the response has no field named
    [adviceDetails] and none under a reserved name (a member of
    [Object.prototype], [__proto__], [__ob__]), answering the same response a
    second time, in the state the first answer left, emits the same fragment
    list and ends the same way (completed or thrown). *)
Theorem same_response_same_fragments i18n_format (res : value) (s : panel) :
  includes (response_fields res) "adviceDetails" = false ->
  forallb ordinary (response_fields res) = true ->
  let s1 := getDataOfProfileHelper i18n_format (Resolved res) s in
  let s2 := getDataOfProfileHelper i18n_format (Resolved res) s1 in
  innerHTMLs s2 = innerHTMLs s1 /\
  handler_completed i18n_format res s1 = handler_completed i18n_format res s.
Proof.
  unfold handler_completed, getDataOfProfileHelper, response_fields, on_response.
  unfold bindM, lift, modify, ret.
  destruct (truthy res); [|auto].
  destruct (get_prop res "data") as [data|]; [|auto].
  destruct (truthy data); [|auto].
  destruct (object_keys data) as [keys|]; [|auto].
  intros Hfields _. apply includes_false_Forall in Hfields.
  cbv zeta.
  set (a := set_innerHTMLs [] s).
  pose proof (forEach_keys_keeps i18n_format data keys a Hfields) as Hkeep.
  set (s1 := snd (forEach_keys i18n_format data keys a)) in *.
  assert (Hag : agree data a (set_innerHTMLs [] s1)).
  { split; [reflexivity | exact Hkeep]. }
  destruct (forEach_keys_agree i18n_format data keys a _ Hfields Hag)
    as [Hfst Hin].
  split; [exact Hin|]. rewrite Hfst. reflexivity.
Qed.

Lemma same_response_same_fragments_witness :
  innerHTMLs
    (getDataOfProfileHelper Samples.show_text
       (Resolved (VObj [("data", Samples.recorded_label)]))
       (getDataOfProfileHelper Samples.show_text
          (Resolved (VObj [("data", Samples.recorded_label)]))
          (data Samples.messages))) =
  innerHTMLs
    (getDataOfProfileHelper Samples.show_text
       (Resolved (VObj [("data", Samples.recorded_label)]))
       (data Samples.messages)) /\
  handler_completed Samples.show_text (VObj [("data", Samples.recorded_label)])
    (getDataOfProfileHelper Samples.show_text
       (Resolved (VObj [("data", Samples.recorded_label)]))
       (data Samples.messages)) =
  handler_completed Samples.show_text (VObj [("data", Samples.recorded_label)])
    (data Samples.messages).
Proof.
  apply (same_response_same_fragments Samples.show_text
           (VObj [("data", Samples.recorded_label)]) (data Samples.messages));
    reflexivity.
Defined.

(** C7, as stated, fails: the first answer to this response emits two
    fragments and records the field [adviceDetails] in the message table;
    the second answer reads the recorded value while it builds the advice
    block, throws there, and emits nothing. *)
Lemma second_answer_differs :
  innerHTMLs (Samples.fetch Samples.own_adviceDetails (data Samples.messages)) =
    [ plain_item "undefined"; suggested_item "Common" ] /\
  innerHTMLs
    (Samples.fetch Samples.own_adviceDetails
       (Samples.fetch Samples.own_adviceDetails (data Samples.messages))) = [].
Proof. vm_compute. split; reflexivity. Qed.

(** * Further properties of the helper and of the frame *)

Import Template.

(** ** The shape of one turn *)

Lemma getAdvisorProposer_flagged i18n_format (v : value) (item : string)
    (s : panel) :
  flagged s (snd (getAdvisorProposer i18n_format v item s)).
Proof.
  unfold flagged, getAdvisorProposer, bindM, lift, modify, ret, gets.
  destruct (get_prop v item) as [model|]; simpl; [|auto].
  destruct (hasOwnProperty model "extend") as [[|]|]; simpl; auto.
Qed.

Lemma render_item_rendered i18n_format (item : string) (v : value)
    (s : panel) :
  rendered s (snd (render_item i18n_format item v s)).
Proof.
  pose proof (getAdvisorProposer_flagged i18n_format v "AICPUModel" s) as Hg.
  assert (Hs : rendered s s).
  { right. exists s. split; [left; reflexivity | left; reflexivity]. }
  unfold render_item, bindM, gets, lift, push, modify, ret. simpl.
  repeat match goal with
         | |- context [if ?b then _ else _] => destruct b; simpl
         | |- context [match ?x with Ok _ => _ | Throw => _ end] =>
             destruct x; simpl
         | |- context [getAdvisorProposer i18n_format v "AICPUModel" s] =>
             destruct (getAdvisorProposer i18n_format v "AICPUModel" s)
               as [r1 t1]; simpl in Hg; simpl
         end;
    try exact Hs;
    try (left; eexists; reflexivity);
    try (right; exists t1; split; [exact Hg | left; reflexivity]);
    try (right; exists t1; split; [exact Hg | right; eexists; reflexivity]).
Qed.

(** ** Invariants over the calls the source makes *)

Section Calls.

Variable R : panel -> panel -> Prop.
Hypothesis R_refl : forall s, R s s.
Hypothesis R_trans : forall s1 s2 s3, R s1 s2 -> R s2 s3 -> R s1 s3.
Hypothesis R_record : forall item v s,
  recorded item v = true ->
  R s (set_profiling (<[item := v]> (profiling s)) s).
Hypothesis R_push : forall x s, R s (set_innerHTMLs (innerHTMLs s ++ [x]) s).
Hypothesis R_reset : forall s, R s (set_innerHTMLs [] s).
Hypothesis R_optimize : forall s, R s (set_adviceOptimize true s).
Hypothesis R_not_optimize : forall s, R s (set_adviceNotOptimize true s).
Hypothesis R_ms_advice : forall html s, R s (write_ms_advice html s).
Hypothesis R_helper_tips : forall html s, R s (write_helper_tips html s).

Variable i18n_format : string -> value -> value -> string.

Lemma calls_record_message (item : string) (v : value) (s : panel) :
  R s (snd (record_message item v s)).
Proof.
  unfold record_message. fold (recorded item v).
  destruct (recorded item v) eqn:Hrec; simpl; auto.
Qed.

Lemma calls_render_item (item : string) (v : value) (s : panel) :
  R s (snd (render_item i18n_format item v s)).
Proof.
  destruct (render_item_rendered i18n_format item v s)
    as [[x ->] | (t & Ht & Hs')].
  - apply R_push.
  - assert (Rt : R s t).
    { destruct Ht as [-> | [-> | ->]]; auto. }
    destruct Hs' as [-> | [html ->]]; [exact Rt|].
    eapply R_trans; [exact Rt | apply R_ms_advice].
Qed.

Lemma calls_process_item (data : value) (item : string) (s : panel) :
  R s (snd (process_item i18n_format data item s)).
Proof.
  rewrite process_item_split. unfold before_write, bindM, lift.
  destruct (get_prop data item) as [v|]; simpl; [|apply R_refl].
  pose proof (calls_record_message item v s) as H1.
  destruct (record_message item v s) as [[u|] s1]; simpl in *; [|exact H1].
  pose proof (calls_render_item item v s1) as H2.
  destruct (render_item i18n_format item v s1) as [[u'|] s2]; simpl in *.
  - eapply R_trans; [exact H1|]. eapply R_trans; [exact H2|]. apply R_helper_tips.
  - eapply R_trans; eassumption.
Qed.

Lemma calls_forEach_keys (data : value) (keys : list string) (s : panel) :
  R s (snd (forEach_keys i18n_format data keys s)).
Proof.
  revert s. induction keys as [|item rest IH]; intros s; simpl.
  - apply R_refl.
  - unfold bindM. pose proof (calls_process_item data item s) as H.
    destruct (process_item i18n_format data item s) as [[u|] s1];
      simpl in *; [|exact H].
    eapply R_trans; [exact H | apply IH].
Qed.

Lemma calls_getDataOfProfileHelper (r : response) (s : panel) :
  R s (getDataOfProfileHelper i18n_format r s).
Proof.
  destruct r as [|res]; [apply R_refl|].
  unfold getDataOfProfileHelper, on_response, bindM, lift, modify, ret.
  destruct (truthy res); [|apply R_refl].
  destruct (get_prop res "data") as [data|]; [|apply R_refl].
  destruct (truthy data); [|apply R_refl].
  destruct (object_keys data) as [keys|]; simpl; [|apply R_reset].
  eapply R_trans; [apply R_reset | apply calls_forEach_keys].
Qed.

End Calls.

(** ** What a response never resets *)

(** X1.  Answering a request, whatever the answer, never lowers
    [adviceOptimize] or [adviceNotOptimize] and never changes [adviceShow]:
    the flags are only ever set to [true], and a later answer without advice
    does not take back an earlier one with advice. *)
Theorem response_never_resets_advice i18n_format (r : response) (s : panel) :
  adviceShow (getDataOfProfileHelper i18n_format r s) = adviceShow s /\
  raised (adviceOptimize s)
         (adviceOptimize (getDataOfProfileHelper i18n_format r s)) /\
  raised (adviceNotOptimize s)
         (adviceNotOptimize (getDataOfProfileHelper i18n_format r s)).
Proof.
  apply (calls_getDataOfProfileHelper
           (fun s s' => adviceShow s' = adviceShow s /\
                        raised (adviceOptimize s) (adviceOptimize s') /\
                        raised (adviceNotOptimize s) (adviceNotOptimize s'))).
  - intros s0. unfold raised. rewrite !implb_same. auto.
  - intros s1 s2 s3 (A1 & B1 & C1) (A2 & B2 & C2). unfold raised in *.
    repeat split; [congruence | |].
    + destruct (adviceOptimize s1), (adviceOptimize s2), (adviceOptimize s3);
        simpl in *; congruence.
    + destruct (adviceNotOptimize s1), (adviceNotOptimize s2),
        (adviceNotOptimize s3); simpl in *; congruence.
  - intros item v s0 _. unfold raised. simpl. rewrite !implb_same. auto.
  - intros x s0. unfold raised. simpl. rewrite !implb_same. auto.
  - intros s0. unfold raised. simpl. rewrite !implb_same. auto.
  - intros s0. unfold raised. simpl. rewrite implb_same, implb_true_r. auto.
  - intros s0. unfold raised. simpl. rewrite implb_same, implb_true_r. auto.
  - intros html s0. unfold raised, write_ms_advice.
    destruct (ms_advice_content s0); simpl; rewrite !implb_same; auto.
  - intros html s0. unfold raised, write_helper_tips.
    destruct (helper_tips s0); simpl; rewrite !implb_same; auto.
Qed.

(** X2.  Once the title of the expert advice shows the link, it shows the
    link after every further answer and after every click: [v-if] tests
    [adviceOptimize], which nothing lowers. *)
Theorem advice_link_stays i18n_format (r : response) (s : panel) :
  advice_title s = ExpertOpAdvice ->
  advice_title (getDataOfProfileHelper i18n_format r s) = ExpertOpAdvice /\
  advice_title (adviceToShow s) = ExpertOpAdvice.
Proof.
  unfold advice_title. intros H.
  destruct (adviceOptimize s) eqn:Hs;
    [|destruct (adviceNotOptimize s); discriminate].
  split.
  - assert (Hopt : adviceOptimize (getDataOfProfileHelper i18n_format r s)
                   = true).
    { revert Hs.
      apply (calls_getDataOfProfileHelper
               (fun s s' => adviceOptimize s = true ->
                            adviceOptimize s' = true)); auto.
      - intros html s0. unfold write_ms_advice.
        destruct (ms_advice_content s0); auto.
      - intros html s0. unfold write_helper_tips.
        destruct (helper_tips s0); auto. }
    rewrite Hopt. reflexivity.
  - simpl. rewrite Hs. reflexivity.
Qed.

Lemma advice_link_stays_witness :
  advice_title
    (getDataOfProfileHelper Samples.show_text
       (Samples.axios
          (VObj [("msadvisor-proposer",
                  VObj [("AICPUModel", VObj [("title", VStr "AICPU")])])]))
       (Samples.fetch
          (VObj [("msadvisor-proposer",
                  Samples.proposer
                    [Samples.advice recommendation [VStr "Cast"]])])
          (data Samples.messages))) = ExpertOpAdvice /\
  advice_title
    (adviceToShow
       (Samples.fetch
          (VObj [("msadvisor-proposer",
                  Samples.proposer
                    [Samples.advice recommendation [VStr "Cast"]])])
          (data Samples.messages))) = ExpertOpAdvice.
Proof.
  apply (advice_link_stays Samples.show_text). reflexivity.
Defined.

(** X3.  The descriptors of the fields in [tipsArrayList] and in
    [moreParameter] are never overwritten: whatever the answer, as long as
    none of its fields goes under a reserved name ([__proto__] among them,
    which would replace what the table inherits), the message table holds
    for these names what it held before the request. *)
Theorem known_descriptors_never_overwritten i18n_format (r : response)
    (s : panel) (k : string) :
  forallb ordinary (answer_fields r) = true ->
  includes tipsArrayList k || includes moreParameter k = true ->
  profiling (getDataOfProfileHelper i18n_format r s) !! k = profiling s !! k.
Proof.
  intros _ Hk.
  apply (calls_getDataOfProfileHelper
           (fun s s' => profiling s' !! k = profiling s !! k));
    try reflexivity.
  - intros s1 s2 s3 H12 H23. congruence.
  - intros item v s0 Hrec. simpl. apply lookup_insert_ne. intros <-.
    unfold recorded in Hrec.
    apply andb_prop in Hrec as [Hrec _]. apply andb_prop in Hrec as [Ht Hm].
    apply negb_true_iff in Ht, Hm. rewrite Ht, Hm in Hk. discriminate Hk.
  - intros html s0. apply f_equal with (f := fun P => P !! k).
    apply profiling_write_ms_advice.
  - intros html s0. apply f_equal with (f := fun P => P !! k).
    apply profiling_write_helper_tips.
Qed.

Lemma known_descriptors_never_overwritten_witness :
  profiling
    (getDataOfProfileHelper Samples.show_text
       (Samples.axios
          (VObj [("minddata_device_queue", VArr [VNum (Fin 1); VNum (Fin 2)]);
                 ("common-proposer_type_label",
                  Samples.descriptor "From the backend")]))
       (data Samples.messages)) !! "minddata_device_queue"
  = profiling (data Samples.messages) !! "minddata_device_queue".
Proof.
  apply (known_descriptors_never_overwritten Samples.show_text);
    reflexivity.
Defined.

(** X4.  When neither [#helper-tips] nor [#ms-advice-content] is in the
    document, an answer writes nothing: both null checks hold the
    assignments back, for every field and every outcome. *)
Theorem detached_panel_not_written i18n_format (r : response) (s : panel) :
  helper_tips s = None ->
  ms_advice_content s = None ->
  dom (getDataOfProfileHelper i18n_format r s) = dom s.
Proof.
  intros Hh Hm.
  apply (calls_getDataOfProfileHelper
           (fun s s' => helper_tips s = None -> ms_advice_content s = None ->
                        dom s' = dom s)); auto.
  - intros s1 s2 s3 H12 H23 H1 H2.
    specialize (H12 H1 H2). rewrite <- H12. apply H23.
    + unfold dom in H12. congruence.
    + unfold dom in H12. congruence.
  - intros html s0 _ H2. unfold write_ms_advice. rewrite H2. reflexivity.
  - intros html s0 H1 _. unfold write_helper_tips. rewrite H1. reflexivity.
Qed.

Lemma detached_panel_not_written_witness :
  dom (getDataOfProfileHelper Samples.show_text
         (Samples.axios Samples.two_fields)
         (mkPanel Samples.messages "none" false false [] None None [])) =
  dom (mkPanel Samples.messages "none" false false [] None None []).
Proof.
  apply (detached_panel_not_written Samples.show_text); reflexivity.
Defined.

(** ** The fragment list *)

Lemma process_item_appends i18n_format (data : value) (item : string)
    (s : panel) :
  exists added,
    innerHTMLs (snd (process_item i18n_format data item s))
      = innerHTMLs s ++ added /\
    (List.length added <= 1)%nat.
Proof.
  rewrite process_item_split. unfold before_write, bindM, lift.
  assert (Hnone : exists added : list string,
             innerHTMLs s = innerHTMLs s ++ added /\ (List.length added <= 1)%nat).
  { exists []. rewrite app_nil_r. split; [reflexivity | simpl; lia]. }
  destruct (get_prop data item) as [v|]; simpl; [|exact Hnone].
  assert (Hrec : innerHTMLs (snd (record_message item v s)) = innerHTMLs s).
  { unfold record_message.
    destruct (negb (includes tipsArrayList item)
              && negb (includes moreParameter item) && truthy v); reflexivity. }
  destruct (record_message item v s) as [[u|] s1]; simpl in *;
    [|rewrite Hrec; exact Hnone].
  assert (Hren : exists added,
             innerHTMLs (snd (render_item i18n_format item v s1))
               = innerHTMLs s ++ added /\ (List.length added <= 1)%nat).
  { destruct (render_item_rendered i18n_format item v s1)
      as [[x ->] | (t & Ht & Hs')].
    - exists [x]. simpl. rewrite Hrec. split; [reflexivity | lia].
    - assert (Hit : innerHTMLs t = innerHTMLs s).
      { destruct Ht as [-> | [-> | ->]]; simpl; exact Hrec. }
      destruct Hs' as [-> | [html ->]];
        rewrite ?innerHTMLs_write_ms_advice, Hit; exact Hnone. }
  destruct (render_item i18n_format item v s1) as [[u'|] s2]; simpl in *;
    rewrite ?innerHTMLs_write_helper_tips; exact Hren.
Qed.

(** X5.  The loop over the fields only ever appends to the fragment list,
    and at most one fragment per field: after it the list is the old one
    followed by no more new fragments than there are fields. *)
Theorem at_most_one_fragment_per_field i18n_format (data : value)
    (keys : list string) (s : panel) :
  exists added,
    innerHTMLs (snd (forEach_keys i18n_format data keys s))
      = innerHTMLs s ++ added /\
    (List.length added <= List.length keys)%nat.
Proof.
  revert s. induction keys as [|item rest IH]; intros s; simpl.
  - exists []. rewrite app_nil_r. split; [reflexivity | simpl; lia].
  - unfold bindM.
    destruct (process_item_appends i18n_format data item s) as (a1 & H1 & L1).
    destruct (process_item i18n_format data item s) as [[u|] s1]; simpl in *.
    + destruct (IH s1) as (a2 & H2 & L2).
      exists (a1 ++ a2). rewrite H2, H1, <- app_assoc.
      split; [reflexivity|]. rewrite length_app. lia.
    + exists a1. split; [exact H1 | lia].
Qed.

(** X6.  An answer that enumerates no field (no payload, an empty object, a
    number) leaves both insertion points, the message table and the flags as
    they were: tips shown before the request are not cleared. *)
Theorem empty_response_keeps_tips i18n_format (res : value) (s : panel) :
  response_fields res = [] ->
  dom (getDataOfProfileHelper i18n_format (Resolved res) s) = dom s /\
  profiling (getDataOfProfileHelper i18n_format (Resolved res) s)
    = profiling s /\
  adviceOptimize (getDataOfProfileHelper i18n_format (Resolved res) s)
    = adviceOptimize s /\
  adviceNotOptimize (getDataOfProfileHelper i18n_format (Resolved res) s)
    = adviceNotOptimize s.
Proof.
  unfold response_fields, getDataOfProfileHelper, on_response.
  unfold bindM, lift, modify, ret.
  destruct (truthy res); [|auto].
  destruct (get_prop res "data") as [data|]; [|auto].
  destruct (truthy data); [|auto].
  destruct (object_keys data) as [keys|]; simpl; [|auto].
  intros ->. simpl. auto.
Qed.

Lemma empty_response_keeps_tips_witness :
  dom (getDataOfProfileHelper Samples.show_text
         (Resolved (VObj [("data", VObj [])]))
         (Samples.fetch Samples.two_fields (data Samples.messages)))
    = dom (Samples.fetch Samples.two_fields (data Samples.messages)) /\
  profiling (getDataOfProfileHelper Samples.show_text
         (Resolved (VObj [("data", VObj [])]))
         (Samples.fetch Samples.two_fields (data Samples.messages)))
    = profiling (Samples.fetch Samples.two_fields (data Samples.messages)) /\
  adviceOptimize (getDataOfProfileHelper Samples.show_text
         (Resolved (VObj [("data", VObj [])]))
         (Samples.fetch Samples.two_fields (data Samples.messages)))
    = adviceOptimize (Samples.fetch Samples.two_fields (data Samples.messages)) /\
  adviceNotOptimize (getDataOfProfileHelper Samples.show_text
         (Resolved (VObj [("data", VObj [])]))
         (Samples.fetch Samples.two_fields (data Samples.messages)))
    = adviceNotOptimize
        (Samples.fetch Samples.two_fields (data Samples.messages)).
Proof.
  apply (empty_response_keeps_tips Samples.show_text). reflexivity.
Defined.

(** ** More branches of the dispatch *)

(** X7.  A field whose name ends in [type_label], the advisor's label
    excepted, yields the titled suggestion.  Its text is the [desc] of the
    field's own value when step 1 recorded that value (a truthy one), and the
    [desc] of the localized descriptor otherwise. *)
Theorem type_label_title i18n_format (data : value) (item : string)
    (v : value) (desc : string) (s : panel) :
  endsWith item "type_label" = true ->
  String.eqb item "msadvisor-proposer_type_label" = false ->
  get_prop data item = Ok v ->
  desc_text (if recorded item v then v else message (profiling s) item)
    = Ok desc ->
  process_item i18n_format data item s =
    (Ok tt,
     write_helper_tips
       (join EmptyString (innerHTMLs s ++ [suggested_item desc]))
       (set_innerHTMLs (innerHTMLs s ++ [suggested_item desc])
          (if recorded item v
           then set_profiling (<[item := v]> (profiling s)) s
           else s))).
Proof.
  intros Hends Hne Hv Hdesc.
  unfold process_item, bindM, lift. rewrite Hv.
  unfold record_message. fold (recorded item v).
  destruct (recorded item v); simpl;
    unfold render_item, bindM, gets, lift, push, modify; simpl;
    rewrite Hends, Hne; simpl;
    rewrite ?message_insert_eq, Hdesc; reflexivity.
Qed.

Lemma type_label_title_witness :
  process_item Samples.show_text Samples.recorded_label
    "common-proposer_type_label" (data Samples.messages) =
    (Ok tt,
     write_helper_tips
       (join EmptyString [suggested_item "From the backend"])
       (set_innerHTMLs [suggested_item "From the backend"]
          (set_profiling
             (<["common-proposer_type_label" :=
                  Samples.descriptor "From the backend"]> Samples.messages)
             (data Samples.messages)))).
Proof.
  apply (type_label_title Samples.show_text Samples.recorded_label
           "common-proposer_type_label"
           (Samples.descriptor "From the backend") "From the backend"
           (data Samples.messages)); reflexivity.
Defined.

(** X8.  A field the message table has no entry for, whose name is not a
    reserved one and whose value step 1 does not record, makes the handler
    throw before it has changed anything (the queue fill rate and the two
    advisor names apart, which do not read the descriptor of the field). *)
Theorem unknown_field_throws i18n_format (data : value) (item : string)
    (v : value) (s : panel) :
  ordinary item = true ->
  profiling s !! item = None ->
  get_prop data item = Ok v ->
  recorded item v = false ->
  String.eqb item "minddata_device_queue_rate" = false ->
  String.eqb item "msadvisor-proposer" = false ->
  String.eqb item "msadvisor-proposer_type_label" = false ->
  process_item i18n_format data item s = (Throw, s).
Proof.
  intros _ Hnone Hv Hrec Hrate Hadv Hlabel.
  assert (Hmsg : message (profiling s) item = VUndef).
  { unfold message. rewrite Hnone. reflexivity. }
  unfold process_item, bindM, lift. rewrite Hv.
  unfold record_message. fold (recorded item v). rewrite Hrec.
  unfold render_item, bindM, gets, lift, push, modify, ret. simpl.
  rewrite Hlabel, Hadv, Hmsg.
  unfold tip_content, queue_content. rewrite Hrate, Hmsg. simpl.
  repeat match goal with
         | |- context [if ?b then _ else _] => destruct b; simpl
         | |- context [bindR ?c _] => destruct c; simpl
         | |- context [match ?x with Ok _ => _ | Throw => _ end] =>
             destruct x; simpl
         end; reflexivity.
Qed.

Lemma unknown_field_throws_witness :
  process_item Samples.show_text Samples.unknown_second "brand_new_tip"
    (data Samples.messages) = (Throw, data Samples.messages).
Proof.
  apply (unknown_field_throws Samples.show_text Samples.unknown_second
           "brand_new_tip" VNull); reflexivity.
Defined.

(** X9.  The field [msadvisor-proposer_type_label] never yields a fragment
    and never fails, whatever its value and whatever the message table
    holds: its turn only records a truthy value and rewrites [#helper-tips]
    with the fragments emitted so far. *)
Theorem advisor_label_is_silent i18n_format (data v : value) (s : panel) :
  get_prop data "msadvisor-proposer_type_label" = Ok v ->
  process_item i18n_format data "msadvisor-proposer_type_label" s =
    (Ok tt,
     write_helper_tips (join EmptyString (innerHTMLs s))
       (if truthy v
        then set_profiling
               (<["msadvisor-proposer_type_label" := v]> (profiling s)) s
        else s)).
Proof.
  intros Hv. unfold process_item, bindM, lift. rewrite Hv.
  unfold record_message. simpl.
  destruct (truthy v); reflexivity.
Qed.

Lemma advisor_label_is_silent_witness :
  process_item Samples.show_text
    (VObj [("msadvisor-proposer_type_label", VNum (Fin 3))])
    "msadvisor-proposer_type_label" (data Samples.messages) =
    (Ok tt,
     write_helper_tips (join EmptyString [])
       (set_profiling
          (<["msadvisor-proposer_type_label" := VNum (Fin 3)]> Samples.messages)
          (data Samples.messages))).
Proof.
  apply (advisor_label_is_silent Samples.show_text
           (VObj [("msadvisor-proposer_type_label", VNum (Fin 3))])
           (VNum (Fin 3)) (data Samples.messages)).
  reflexivity.
Defined.

(** X10.  When [AICPUModel] has an [extend] property that is not a list,
    [getAdvisorProposer] has already raised [adviceOptimize] when the
    [forEach] call fails: the turn throws, the advice container is not
    written, and the title shows the advice link with nothing under it. *)
Theorem advisor_flag_raised_before_failure i18n_format (v : value)
    (fs : list (string * value)) (extend : value) (s : panel) :
  get_prop v "AICPUModel" = Ok (VObj fs) ->
  has_key "hasOwnProperty" fs = false ->
  assoc "extend" fs = Some extend ->
  forEach_elems extend = Throw ->
  render_item i18n_format "msadvisor-proposer" v s =
    (Throw, set_adviceOptimize true s) /\
  advice_title (set_adviceOptimize true s) = ExpertOpAdvice /\
  dom (set_adviceOptimize true s) = dom s.
Proof.
  intros Hv Hshadow Hext Hnot. repeat split.
  unfold render_item, bindM, gets, lift. simpl.
  unfold getAdvisorProposer, bindM, gets, lift, modify, ret.
  rewrite Hv. simpl. rewrite Hshadow. unfold has_key. rewrite Hext. simpl.
  rewrite Hnot. reflexivity.
Qed.

Lemma advisor_flag_raised_before_failure_witness :
  render_item Samples.show_text "msadvisor-proposer"
    (VObj [("AICPUModel", VObj [("extend", VNull)])]) (data Samples.messages) =
    (Throw, set_adviceOptimize true (data Samples.messages)) /\
  advice_title (set_adviceOptimize true (data Samples.messages))
    = ExpertOpAdvice /\
  dom (set_adviceOptimize true (data Samples.messages))
    = dom (data Samples.messages).
Proof.
  apply (advisor_flag_raised_before_failure Samples.show_text
           (VObj [("AICPUModel", VObj [("extend", VNull)])])
           [("extend", VNull)] VNull (data Samples.messages)); reflexivity.
Defined.

(** X11.  A descriptor whose [anchor] is a list is handled by the length of
    the list: empty, the description is shown as a plain tip line without a
    link; one anchor, the description is wrapped in a link to the first URL
    (the text undefined when no URL is configured); two or more, the turn
    throws. *)
Theorem anchor_list_cases (desc : string) (anchors urls : list value) :
  anchor_or_default
    (VObj [("desc", VStr desc); ("anchor", VArr anchors); ("url", VArr urls)])
  = match anchors with
    | [] => Ok (content_item 27 desc)
    | [_] =>
        href <- to_string (nth 0 urls VUndef) ;;
        Ok (linked_item href desc)
    | _ :: _ :: _ => Throw
    end.
Proof.
  destruct anchors as [|a [|b rest]].
  - reflexivity.
  - reflexivity.
  - apply (anchor_branch_throws _ (VArr (a :: b :: rest))
             (Z.of_nat (List.length (a :: b :: rest)))).
    + reflexivity.
    + reflexivity.
    + reflexivity.
    + simpl List.length. lia.
Qed.

(** ** Placeholders *)

Lemma to_string_text (text : string) : to_string (VStr text) = Ok text.
Proof. reflexivity. Qed.

Lemma to_string_NaN : to_string (VNum NaN) = Ok "NaN".
Proof. reflexivity. Qed.

Lemma js_sub_from_dash (n : num) :
  js_sub (VStr "--") (VNum n) = Ok (VNum NaN).
Proof. reflexivity. Qed.

Lemma js_sub_dash (n : num) : js_sub (VNum n) (VStr "--") = Ok (VNum NaN).
Proof. destruct n; reflexivity. Qed.

Lemma js_sub_dashes : js_sub (VStr "--") (VStr "--") = Ok (VNum NaN).
Proof. reflexivity. Qed.

(** X12.  For a queue pair of two integers up to 2^53 in magnitude (the
    integers that are doubles one by one and print as their decimal digits)
    of which one is negative, the negative bound is shown as the dash and
    the third placeholder always receives the text NaN, whatever the other
    bound is. *)
Theorem queue_negative_bound_gives_NaN (P : gmap string value)
    (item desc : string) (a b : Z) :
  safe a = true -> safe b = true ->
  desc_text (message P item) = Ok desc ->
  (a < 0 \/ b < 0)%Z ->
  queue_content P item (VArr [VNum (Fin a); VNum (Fin b)]) =
    Ok (replace
          (replace
             (replace
                (replace desc "{n1}" (nowrap (shown_bound a)))
                "{n2}" (nowrap (shown_bound b)))
             "{n3}" (nowrap "NaN"))
          "{n4}" (nowrap (shown_bound b))).
Proof.
  intros Sa Sb Hd Hneg. unfold queue_content, shown_bound, destructure_pair.
  cbv beta iota zeta delta [bindR fst snd nth].
  rewrite (js_ge_safe a Sa), (js_ge_safe b Sb), Hd.
  destruct (0 <=? a)%Z eqn:Ea; destruct (0 <=? b)%Z eqn:Eb;
    [ apply Z.leb_le in Ea, Eb; lia | | | ];
    rewrite ?(to_string_int a Sa), ?(to_string_int b Sb), ?to_string_text,
      ?js_sub_from_dash, ?js_sub_dash, ?js_sub_dashes, ?to_string_NaN;
    reflexivity.
Qed.

Lemma queue_negative_bound_gives_NaN_witness :
  queue_content Samples.messages "minddata_device_queue"
    (VArr [VNum (Fin 7); VNum (Fin (-1))]) =
    Ok (replace
          (replace
             (replace
                (replace "empty {n1} of {n2}, busy {n3} of {n4}"
                   "{n1}" (nowrap (shown_bound 7)))
                "{n2}" (nowrap (shown_bound (-1))))
             "{n3}" (nowrap "NaN"))
          "{n4}" (nowrap (shown_bound (-1)))).
Proof.
  apply (queue_negative_bound_gives_NaN Samples.messages
           "minddata_device_queue" "empty {n1} of {n2}, busy {n3} of {n4}"
           7 (-1)); [reflexivity | reflexivity | reflexivity | lia].
Defined.

Lemma get_substitution_no_dollar (matched before after repl : string) :
  no_dollar repl = true ->
  get_substitution matched before after repl = repl.
Proof.
  induction repl as [|c t IH]; simpl; intros H; [reflexivity|].
  apply andb_prop in H as [Hc Ht]. apply negb_true_iff in Hc.
  rewrite Hc, (IH Ht). reflexivity.
Qed.

(** X13.  For a field of [tipsArrayList] other than the queue fill rate, the
    first element of the value, when its text has no dollar sign, is put
    verbatim in place of the first [{n1}] of the description and of that one
    only; a description without [{n1}] is shown unchanged. *)
Theorem tip_placeholder_verbatim i18n_format (P : gmap string value)
    (item : string) (v first : value) (desc text : string) :
  includes tipsArrayList item = true ->
  String.eqb item "minddata_device_queue_rate" = false ->
  desc_text (message P item) = Ok desc ->
  get_index v 0 = Ok first ->
  to_string first = Ok text ->
  no_dollar text = true ->
  tip_content i18n_format P item v =
    Ok (match String.index 0 "{n1}" desc with
        | None => desc
        | Some i =>
            substring 0 i desc +:+ text +:+
            substring (i + 4) (String.length desc - (i + 4)) desc
        end).
Proof.
  intros _ Hrate Hd Hfirst Htext Hno.
  unfold tip_content. rewrite Hrate, Hd. simpl. rewrite Hfirst. simpl.
  rewrite Htext. simpl. unfold replace.
  destruct (String.index 0 "{n1}" desc) as [i|]; [|reflexivity].
  rewrite (get_substitution_no_dollar _ _ _ text Hno). reflexivity.
Qed.

Lemma tip_placeholder_verbatim_witness :
  tip_content Samples.show_text
    (<["step_trace-iter_interval" :=
         Samples.descriptor "interval {n1} and again {n1}"]> Samples.messages)
    "step_trace-iter_interval" (VArr [VNum (number 35 (-2))]) =
    Ok (match String.index 0 "{n1}" "interval {n1} and again {n1}" with
        | None => "interval {n1} and again {n1}"
        | Some i =>
            substring 0 i "interval {n1} and again {n1}" +:+ "0.35" +:+
            substring (i + 4)
              (String.length "interval {n1} and again {n1}" - (i + 4))
              "interval {n1} and again {n1}"
        end).
Proof.
  apply (tip_placeholder_verbatim Samples.show_text _
           "step_trace-iter_interval" (VArr [VNum (number 35 (-2))])
           (VNum (number 35 (-2))) "interval {n1} and again {n1}" "0.35");
    vm_compute; reflexivity.
Defined.

(** ** The message table under the dispatch *)

Lemma process_item_overwritten i18n_format (data : value) (item : string)
    (s : panel) :
  overwritten data (profiling s)
    (profiling (snd (process_item i18n_format data item s))).
Proof.
  rewrite process_item_split. unfold before_write, bindM, lift.
  destruct (get_prop data item) as [v|] eqn:Hv; simpl;
    [|apply overwritten_refl].
  assert (Hrec : overwritten data (profiling s)
                   (profiling (snd (record_message item v s)))).
  { unfold record_message.
    destruct (negb (includes tipsArrayList item)
              && negb (includes moreParameter item) && truthy v) eqn:Hc;
      [|apply overwritten_refl].
    apply recorded_conditions in Hc as (Ht & Hm & Htr). simpl.
    intros k. destruct (decide (item = k)) as [<-|Hk].
    - right. repeat split; auto. exists v. rewrite lookup_insert_eq. auto.
    - left. apply lookup_insert_ne. exact Hk. }
  destruct (record_message item v s) as [[u|] s1]; simpl in *; [|exact Hrec].
  pose proof (render_item_profiling i18n_format item v s1) as Hp.
  unfold same_profiling in Hp.
  destruct (render_item i18n_format item v s1) as [[u'|] s2]; simpl in *;
    rewrite ?profiling_write_helper_tips, Hp; exact Hrec.
Qed.

(** X14.  Through a whole loop over fields none of which goes under a
    reserved name, an entry of the message table either stays what it was or
    has become the value the response holds under that very name, and the
    latter only for a truthy value of a name outside [tipsArrayList] and
    [moreParameter]; nothing is ever removed from the table. *)
Theorem table_changes_only_by_recording i18n_format (data : value)
    (keys : list string) (s : panel) :
  forallb ordinary keys = true ->
  overwritten data (profiling s)
    (profiling (snd (forEach_keys i18n_format data keys s))) /\
  (forall k, is_Some (profiling s !! k) ->
             is_Some (profiling (snd (forEach_keys i18n_format data keys s))
                        !! k)).
Proof.
  intros _.
  assert (H : overwritten data (profiling s)
                (profiling (snd (forEach_keys i18n_format data keys s)))).
  { revert s. induction keys as [|item rest IH]; intros s; simpl.
    - apply overwritten_refl.
    - unfold bindM.
      pose proof (process_item_overwritten i18n_format data item s) as H1.
      destruct (process_item i18n_format data item s) as [[u|] s1];
        simpl in *; [|exact H1].
      eapply overwritten_trans; [exact H1 | apply IH]. }
  split; [exact H|].
  intros k Hk. destruct (H k) as [-> | (_ & _ & v & _ & _ & ->)]; [exact Hk|].
  eexists. reflexivity.
Qed.

Lemma table_changes_only_by_recording_witness :
  overwritten Samples.recorded_label (profiling (data Samples.messages))
    (profiling
       (snd (forEach_keys Samples.show_text Samples.recorded_label
               ["common-proposer_type_label"; "common-profiler_tutorial"]
               (data Samples.messages)))) /\
  is_Some
    (profiling
       (snd (forEach_keys Samples.show_text Samples.recorded_label
               ["common-proposer_type_label"; "common-profiler_tutorial"]
               (data Samples.messages))) !! "adviceDetails").
Proof.
  destruct (table_changes_only_by_recording Samples.show_text
              Samples.recorded_label
              ["common-proposer_type_label"; "common-profiler_tutorial"]
              (data Samples.messages) eq_refl) as [H1 H2].
  split; [exact H1|]. apply H2. eexists. reflexivity.
Defined.

(** X15.  A field that step 1 records, unless its name is a reserved one,
    can be read back from the message table under its name as soon as its
    turn is over, whether the turn completed or threw. *)
Theorem recorded_value_read_back i18n_format (data : value) (item : string)
    (v : value) (s : panel) :
  ordinary item = true ->
  get_prop data item = Ok v ->
  recorded item v = true ->
  message (profiling (snd (process_item i18n_format data item s))) item = v.
Proof.
  intros _ Hv Hrec. rewrite process_item_split.
  unfold before_write, bindM, lift. rewrite Hv.
  unfold record_message. fold (recorded item v). rewrite Hrec. simpl.
  pose proof (render_item_profiling i18n_format item v
                (set_profiling (<[item := v]> (profiling s)) s)) as Hp.
  unfold same_profiling in Hp.
  destruct (render_item i18n_format item v
              (set_profiling (<[item := v]> (profiling s)) s))
    as [[u|] s2]; simpl in *;
    rewrite ?profiling_write_helper_tips, Hp; apply message_insert_eq.
Qed.

Lemma recorded_value_read_back_witness :
  message
    (profiling
       (snd (process_item Samples.show_text
               (VObj [("brand_new_tip", VNum (Fin 4))]) "brand_new_tip"
               (data Samples.messages)))) "brand_new_tip" = VNum (Fin 4).
Proof.
  apply (recorded_value_read_back Samples.show_text
           (VObj [("brand_new_tip", VNum (Fin 4))]) "brand_new_tip"
           (VNum (Fin 4)) (data Samples.messages)); reflexivity.
Defined.

(** ** The frame and the pixel *)

Lemma Qfloor_pos_iff (x : Q) : (0 < Qfloor x)%Z <-> (1 <= x)%Q.
Proof.
  split.
  - intros H. apply Qle_trans with (inject_Z (Qfloor x)).
    + change 1%Q with (inject_Z 1). rewrite <- Zle_Qle. lia.
    + apply Qfloor_le.
  - intros H. apply Qfloor_resp_le in H.
    change (Qfloor 1) with 1%Z in H. lia.
Qed.

(** X16.  The frame yields no [svg] exactly when one of the two measurements
    is below one pixel: a container of positive but sub-pixel size is floored
    to zero and drawn as nothing. *)
Theorem svg_needs_a_whole_pixel (wrapper : SvgFrame.rect) (s : SvgFrame.frame) :
  SvgFrame.template (SvgFrame.mounted wrapper s) = None <->
  (SvgFrame.rect_width wrapper < 1 \/ SvgFrame.rect_height wrapper < 1)%Q.
Proof.
  unfold SvgFrame.template, SvgFrame.mounted. simpl.
  pose proof (Qfloor_pos_iff (SvgFrame.rect_width wrapper)) as Hw.
  pose proof (Qfloor_pos_iff (SvgFrame.rect_height wrapper)) as Hh.
  destruct (0 <? Qfloor (SvgFrame.rect_width wrapper))%Z eqn:Ew;
    destruct (0 <? Qfloor (SvgFrame.rect_height wrapper))%Z eqn:Eh; simpl.
  - apply Z.ltb_lt in Ew, Eh. apply Hw in Ew. apply Hh in Eh.
    split; [discriminate|].
    intros [H | H]; exfalso; eapply Qlt_not_le; eassumption.
  - apply Z.ltb_ge in Eh. split; [intros _|reflexivity].
    right. apply Qnot_le_lt. intros H. apply Hh in H. lia.
  - apply Z.ltb_ge in Ew. split; [intros _|reflexivity].
    left. apply Qnot_le_lt. intros H. apply Hw in H. lia.
  - apply Z.ltb_ge in Ew. split; [intros _|reflexivity].
    left. apply Qnot_le_lt. intros H. apply Hw in H. lia.
Qed.

(** ** Values that take the place of a descriptor *)

(** X17.  A field outside the named branches and the reserved names whose
    value is a non-empty text makes the handler throw: step 1 records the text as the descriptor
    of the field, a text has an [anchor] method of one parameter, so the
    single-anchor branch is taken and reads the first element of a [url] the
    text does not have. *)
Theorem text_valued_field_throws i18n_format (data : value) (item text : string)
    (s : panel) :
  ordinary item = true ->
  get_prop data item = Ok (VStr text) ->
  recorded item (VStr text) = true ->
  endsWith item "type_label" = false ->
  String.eqb item "msadvisor-proposer" = false ->
  process_item i18n_format data item s =
    (Throw, set_profiling (<[item := VStr text]> (profiling s)) s).
Proof.
  intros _ Hv Hrec Hends Hadv.
  pose proof Hrec as Hc. unfold recorded in Hc.
  apply recorded_conditions in Hc as (Ht & Hm & _).
  assert (Hq1 : String.eqb item "minddata_device_queue" = false).
  { destruct (String.eqb item "minddata_device_queue") eqn:E; [|reflexivity].
    apply String.eqb_eq in E. subst item. discriminate Hm. }
  assert (Hq2 : String.eqb item "minddata_get_next_queue" = false).
  { destruct (String.eqb item "minddata_get_next_queue") eqn:E; [|reflexivity].
    apply String.eqb_eq in E. subst item. discriminate Hm. }
  assert (Hq3 : String.eqb item "device_queue_warning" = false).
  { destruct (String.eqb item "device_queue_warning") eqn:E; [|reflexivity].
    apply String.eqb_eq in E. subst item. discriminate Hm. }
  assert (Hl : String.eqb item "msadvisor-proposer_type_label" = false).
  { destruct (String.eqb item "msadvisor-proposer_type_label") eqn:E;
      [|reflexivity].
    apply String.eqb_eq in E. subst item. discriminate Hends. }
  unfold process_item, bindM, lift. rewrite Hv.
  unfold record_message. fold (recorded item (VStr text)). rewrite Hrec.
  unfold render_item, bindM, gets, lift, push, modify, ret.
  repeat progress
    (cbv beta iota delta [andb negb orb fst snd profiling set_profiling];
     rewrite ?Hends, ?Ht, ?Hq1, ?Hq2, ?Hq3, ?Hl, ?Hadv).
  rewrite message_insert_eq. reflexivity.
Qed.

Lemma text_valued_field_throws_witness :
  process_item Samples.show_text
    (VObj [("brand_new_tip", VStr "use a larger batch")]) "brand_new_tip"
    (data Samples.messages) =
    (Throw,
     set_profiling
       (<["brand_new_tip" := VStr "use a larger batch"]> Samples.messages)
       (data Samples.messages)).
Proof.
  apply (text_valued_field_throws Samples.show_text
           (VObj [("brand_new_tip", VStr "use a larger batch")])
           "brand_new_tip" "use a larger batch" (data Samples.messages));
    reflexivity.
Defined.

(** X18.  An advisor payload that is [null], or whose [AICPUModel] is
    missing or [null], makes the turn throw before any flag is raised and
    before anything is written. *)
Theorem advisor_without_model_throws i18n_format (v : value) (s : panel) :
  get_prop v "AICPUModel" = Throw \/
  get_prop v "AICPUModel" = Ok VUndef \/
  get_prop v "AICPUModel" = Ok VNull ->
  render_item i18n_format "msadvisor-proposer" v s = (Throw, s).
Proof.
  intros H. unfold render_item, bindM, gets, lift. simpl.
  unfold getAdvisorProposer, bindM, lift.
  destruct H as [-> | [-> | ->]]; reflexivity.
Qed.

Lemma advisor_without_model_throws_witness :
  render_item Samples.show_text "msadvisor-proposer"
    (VObj [("OtherModel", VObj [])]) (data Samples.messages) =
    (Throw, data Samples.messages).
Proof.
  apply (advisor_without_model_throws Samples.show_text).
  right. left. reflexivity.
Defined.
